(** * scspkg: the package environment model and its load/unload scripts

    A shallow embedding of [scspkg/pkg.py]: the [Package] class (the sections
    of a modulefile and their accessors, the static TCL and bash renderings)
    and the [ScriptLoader] / [BashLoader] classes (the dynamic load and unload
    scripts computed against the process environment).

    Python dictionaries keep insertion order and the renderers iterate in
    that order, so the sections are association lists ([odict]).  The process
    environment [os.environ] is only ever looked up by name and is a [gmap].
    Exceptions ([KeyError], [SystemExit]) and the effects on the process
    (standard output, [os.environ], the files written by [save]) are threaded
    through a small state-and-error monad [M]. *)

From Stdlib Require Import Ascii.
From stdpp Require Import gmap strings list.

(** ** Python string primitives used by the source *)

Module Py.

Definition nl : string := String (ascii_of_nat 10) "".

(** [sep.join(l)] *)
Fixpoint join (sep : string) (l : list string) : string :=
  match l with
  | [] => ""
  | [x] => x
  | x :: (_ :: _) as r => x +:+ sep +:+ join sep r
  end.

Fixpoint startswith (p s : string) : bool :=
  match p, s with
  | EmptyString, _ => true
  | String a p', String b s' => bool_decide (a = b) && startswith p' s'
  | String _ _, EmptyString => false
  end.

Fixpoint endswith_char (c : ascii) (s : string) : bool :=
  match s with
  | EmptyString => false
  | String a EmptyString => bool_decide (a = c)
  | String _ s' => endswith_char c s'
  end.

(** [s.replace(old, new)] for a non-empty [old]: the occurrences are taken
    from the left and do not overlap; [skip] counts the characters of the
    occurrence just replaced that are still to be passed over. *)
Fixpoint replace_go (old new : string) (skip : nat) (s : string) : string :=
  match s with
  | EmptyString => EmptyString
  | String c s' =>
      match skip with
      | S k => replace_go old new k s'
      | O =>
          if startswith old s
          then new +:+ replace_go old new (String.length old - 1) s'
          else String c (replace_go old new 0 s')
      end
  end.

(** With an empty [old], Python puts [new] before every character and at
    the end. *)
Fixpoint intersperse (new s : string) : string :=
  match s with
  | EmptyString => new
  | String c s' => new +:+ String c (intersperse new s')
  end.

Definition replace (old new s : string) : string :=
  match old with
  | EmptyString => intersperse new s
  | String _ _ => replace_go old new 0 s
  end.

Fixpoint in_chars (c : ascii) (chars : string) : bool :=
  match chars with
  | EmptyString => false
  | String a r => bool_decide (a = c) || in_chars c r
  end.

(** [s.lstrip(chars)], [s.rstrip(chars)], [s.strip(chars)] *)
Fixpoint lstrip (chars s : string) : string :=
  match s with
  | EmptyString => EmptyString
  | String c s' => if in_chars c chars then lstrip chars s' else s
  end.

Fixpoint rstrip (chars s : string) : string :=
  match s with
  | EmptyString => EmptyString
  | String c s' =>
      match rstrip chars s' with
      | EmptyString => if in_chars c chars then EmptyString else String c EmptyString
      | r => String c r
      end
  end.

Definition strip (chars s : string) : string := rstrip chars (lstrip chars s).

(** [os.path.join(a, b)] on a POSIX system. *)
Definition path_join (a b : string) : string :=
  if startswith "/" b then b
  else match a with
       | EmptyString => b
       | _ => if endswith_char "/"%char a then a +:+ b else a +:+ "/" +:+ b
       end.

End Py.

(** ** Insertion-ordered dictionaries

    A Python [dict] with string keys: the items in insertion order.  A
    dictionary never holds a key twice ([wf]); every operation below keeps
    that. *)

Module odict.

Abbreviation t V := (list (string * V)).

Section defs.
Context {V : Type}.

Definition empty : t V := [].

(** [d.keys()]; [d.items()] is the list itself *)
Definition keys (d : t V) : list string := d.*1.

Definition wf (d : t V) : Prop := NoDup (keys d).

(** [d.get(k)] *)
Fixpoint get (k : string) (d : t V) : option V :=
  match d with
  | [] => None
  | (k', v) :: r => if decide (k' = k) then Some v else get k r
  end.

(** [k in d] *)
Definition mem (k : string) (d : t V) : bool := bool_decide (k ∈ keys d).

Fixpoint update (k : string) (v : V) (d : t V) : t V :=
  match d with
  | [] => []
  | (k', v') :: r =>
      if decide (k' = k) then (k', v) :: r else (k', v') :: update k v r
  end.

(** [d[k] = v]: an existing key keeps its position, a new one goes last *)
Definition set (k : string) (v : V) (d : t V) : t V :=
  if mem k d then update k v d else d ++ [(k, v)].

(** [del d[k]] (for a key of [d]) *)
Definition del (k : string) (d : t V) : t V :=
  filter (λ kv, kv.1 ≠ k) d.

End defs.

End odict.

(** ** Exceptions, the process and the monad of effects *)

Inductive exn :=
  | KeyError (key : string)
  | SystemExit (code : Z).

Inductive result (A : Type) :=
  | Ok (a : A)
  | Raise (e : exn).
Arguments Ok {A} a.
Arguments Raise {A} e.

(** The sections of a package, [Package.sections].  [reset_config] builds
    the first four; [appends] is the one section that only [append_env]
    reads, and the skeleton does not have it. *)
Record Sections := mkSections {
  doc : odict.t string;
  deps : odict.t bool;
  setenvs : odict.t string;
  prepends : odict.t (list string);
  appends : option (odict.t (list string))
}.

Inductive file :=
  | YamlDoc (s : Sections)
  | Text (t : string).

(** What a call can observe and change outside the package object: the
    process environment, the lines printed so far, the files written. *)
Record process := mkProcess {
  environ : gmap string string;
  stdout : list string;
  files : gmap string file
}.

Definition M (A : Type) : Type := process → result A * process.

Definition ret {A} (a : A) : M A := λ w, (Ok a, w).

Definition bind {A B} (m : M A) (k : A → M B) : M B :=
  λ w, match m w with
       | (Ok a, w') => k a w'
       | (Raise e, w') => (Raise e, w')
       end.

Definition raise {A} (e : exn) : M A := λ w, (Raise e, w).

Notation "x <- m ;; k" := (bind m (λ x, k))
  (at level 100, m at next level, right associativity).
Notation "m ;;; k" := (bind m (λ _, k))
  (at level 100, right associativity).

(** [print(line)] *)
Definition print (line : string) : M unit :=
  λ w, (Ok (), mkProcess (environ w) (stdout w ++ [line]) (files w)).

(** [exit(code)] *)
Definition exit {A} (code : Z) : M A := raise (SystemExit code).

(** [os.environ.get(k)], [k in os.environ], [os.environ[k]],
    [os.environ[k] = v] *)
Definition environ_get (k : string) : M (option string) :=
  λ w, (Ok (environ w !! k), w).

Definition environ_mem (k : string) : M bool :=
  λ w, (Ok (bool_decide (is_Some (environ w !! k))), w).

Definition environ_item (k : string) : M string :=
  λ w, match environ w !! k with
       | Some v => (Ok v, w)
       | None => (Raise (KeyError k), w)
       end.

Definition environ_set (k v : string) : M unit :=
  λ w, (Ok (), mkProcess (<[k := v]> (environ w)) (stdout w) (files w)).

Definition write_file (path : string) (f : file) : M unit :=
  λ w, (Ok (), mkProcess (environ w) (stdout w) (<[path := f]> (files w))).

(** [for x in l: acc = body(acc, x)] *)
Fixpoint for_each {A S} (l : list A) (body : S → A → M S) (acc : S) : M S :=
  match l with
  | [] => ret acc
  | x :: r => acc' <- body acc x ;; for_each r body acc'
  end.

(** ** The configuration manager *)

(** Modelled from the spec: [ModuleType] is declared in
    [scspkg/scspkg_manager.py], which is not among the sources.  The
    specification has two dialects, the declarative one ([TCL]) and the
    shell-executable one ([BASH]), and an unknown-dialect error for anything
    else: [OTHER], with the text Python shows for that member. *)
Inductive ModuleType := TCL | BASH | OTHER (shown : string).

(** Modelled from the spec: [ScspkgManager] is declared in
    [scspkg/scspkg_manager.py], which is not among the sources.  [pkg.py]
    reads the package directory, the module directory and the module type
    from the one instance that [ScspkgManager.get_instance()] returns. *)
Record ScspkgManager := mkManager {
  pkg_dir : string;
  module_dir : string;
  module_type : ModuleType
}.

(** ** class Package *)

Record Package := mkPackage {
  scspkg : ScspkgManager;
  name : string;
  sections : Sections
}.

(** A parameter the source accepts as a string or as a list
    ([isinstance(env_data, str)]). *)
Inductive str_or_list :=
  | Str (s : string)
  | Lst (l : list string).

Definition as_list (d : str_or_list) : list string :=
  match d with
  | Str s => [s]
  | Lst l => l
  end.

Definition pkg_root (p : Package) : string :=
  Py.path_join (pkg_dir (scspkg p)) (name p).
Definition pkg_src (p : Package) : string := Py.path_join (pkg_root p) "src".
Definition module_path (p : Package) : string :=
  Py.path_join (module_dir (scspkg p)) (name p).
Definition module_schema_path (p : Package) : string :=
  Py.path_join (pkg_root p) (name p +:+ ".yaml").
Definition mod_load_name (p : Package) : string :=
  "SCSPKG_" +:+ name p +:+ "_LOADED".

Definition with_sections (p : Package) (s : Sections) : Package :=
  mkPackage (scspkg p) (name p) s.

Definition with_deps (s : Sections) (d : odict.t bool) : Sections :=
  mkSections (doc s) d (setenvs s) (prepends s) (appends s).
Definition with_setenvs (s : Sections) (d : odict.t string) : Sections :=
  mkSections (doc s) (deps s) d (prepends s) (appends s).
Definition with_prepends (s : Sections) (d : odict.t (list string)) : Sections :=
  mkSections (doc s) (deps s) (setenvs s) d (appends s).
Definition with_appends (s : Sections) (d : odict.t (list string)) : Sections :=
  mkSections (doc s) (deps s) (setenvs s) (prepends s) (Some d).

Definition skeleton (p : Package) : Sections :=
  let root := pkg_root p in
  let j := Py.path_join in
  {| doc := [("Name", name p); ("Version", "None"); ("doc", "None")];
     deps := [];
     setenvs := [];
     prepends :=
       [("PATH", [j root "bin"; j root "sbin"]);
        ("LD_LIBRARY_PATH", [j root "lib"; j root "lib64"]);
        ("LIBRARY_PATH", [j root "lib"; j root "lib64"]);
        ("INCLUDE", []);
        ("CPATH", []);
        ("CMAKE_PREFIX_PATH", [j root "cmake"]);
        ("PYTHONPATH", [j root "bin"; j root "lib"; j root "lib64"]);
        ("PKG_CONFIG_PATH",
          [j (j root "lib") "pkgconfig"; j (j root "lib64") "pkgconfig"]);
        ("CFLAGS", []);
        ("LDFLAGS", [])];
     appends := None |}.

Definition reset_config (p : Package) : Package :=
  with_sections p (skeleton p).

(** [module.append(line)] in a loop over [l] *)
Definition append_lines {A} (line : A → string) (l : list A)
    (module : list string) : list string :=
  foldl (λ acc x, acc ++ [line x]) module l.

Definition tcl_lines (s : Sections) : list string :=
  let module := [] in
  (* The module header *)
  let module := module ++ ["#%Module1.0"] in
  (* The module doc *)
  let module :=
    append_lines (λ '(doc_key, doc_val),
                    "module-whatis '" +:+ doc_key +:+ ": " +:+ doc_val +:+ "'")
                 (doc s) module in
  (* The module dependencies *)
  let module :=
    append_lines (λ dep, "module load " +:+ dep) (odict.keys (deps s)) module in
  (* The module environment variables *)
  let module :=
    append_lines (λ '(env, env_data), "setenv " +:+ env +:+ " " +:+ env_data)
                 (setenvs s) module in
  (* The module environment prepends *)
  foldl (λ module '(env, values),
           append_lines (λ env_data, "prepend-path " +:+ env +:+ " " +:+ env_data)
                        values module)
        module (prepends s).

Definition _save_as_tcl (p : Package) : M unit :=
  write_file (module_path p) (Text (Py.join Py.nl (tcl_lines (sections p)))).

Definition bash_lines (s : Sections) : list string :=
  let module := [] in
  let module := module ++ ["#!/bin/bash"] in
  let module :=
    append_lines (λ '(doc_key, doc_val),
                    "# " +:+ String (ascii_of_nat 34) "" +:+ doc_key +:+ ": "
                    +:+ doc_val +:+ String (ascii_of_nat 34) "")
                 (doc s) module in
  let module :=
    append_lines (λ dep, "$(scspkg module load " +:+ dep +:+ ")")
                 (odict.keys (deps s)) module in
  module ++ ["$(scspkg module load )"].

Definition _save_as_bash (p : Package) : M unit :=
  write_file (module_path p) (Text (Py.join Py.nl (bash_lines (sections p)))).

Definition save (p : Package) : M Package :=
  write_file (module_schema_path p) (YamlDoc (sections p)) ;;;
  match module_type (scspkg p) with
  | TCL => _save_as_tcl p
  | BASH => _save_as_bash p
  | OTHER _ => ret ()
  end ;;;
  ret p.

Definition set_env (env_name env_data : string) (p : Package) : Package :=
  let s := sections p in
  let s := with_setenvs s (odict.set env_name env_data (setenvs s)) in
  let s :=
    if odict.mem env_name (prepends s)
    then with_prepends s (odict.del env_name (prepends s))
    else s in
  with_sections p s.

Definition prepend_env (env_name : string) (env_data : str_or_list)
    (p : Package) : Package :=
  let env_data := as_list env_data in
  let s := sections p in
  let s :=
    if negb (odict.mem env_name (prepends s))
    then with_prepends s (odict.set env_name [] (prepends s))
    else s in
  let s :=
    with_prepends s
      (odict.set env_name
         (default [] (odict.get env_name (prepends s)) ++ env_data)
         (prepends s)) in
  with_sections p s.

(** [self.sections['appends']] raises [KeyError] when the section is not
    there. *)
Definition appends_section (p : Package) : M (odict.t (list string)) :=
  match appends (sections p) with
  | Some a => ret a
  | None => raise (KeyError "appends")
  end.

(** The source extends [env_data] in place with the fragments the name
    already has and stores that same list; the model passes list values, so
    the caller's list is not tracked. *)
Definition append_env (env_name : string) (env_data : str_or_list)
    (p : Package) : M Package :=
  let env_data := as_list env_data in
  a <- appends_section p ;;
  let a := if negb (odict.mem env_name a) then odict.set env_name [] a else a in
  let env_data := env_data ++ default [] (odict.get env_name a) in
  ret (with_sections p
         (with_appends (sections p) (odict.set env_name env_data a))).

Definition rm_env (env_name : string) (p : Package) : Package :=
  let s := sections p in
  let s :=
    if odict.mem env_name (setenvs s)
    then with_setenvs s (odict.del env_name (setenvs s))
    else s in
  let s :=
    if odict.mem env_name (prepends s)
    then with_prepends s (odict.del env_name (prepends s))
    else s in
  with_sections p s.

(** [l.remove(x)]: the first occurrence (the caller has checked [x in l]) *)
Fixpoint list_remove (x : string) (l : list string) : list string :=
  match l with
  | [] => []
  | y :: r => if decide (y = x) then r else y :: list_remove x r
  end.

Definition pop_prepend (env_name env_data : string) (p : Package) : M Package :=
  let s := sections p in
  if odict.mem env_name (prepends s) then
    let prepends_x := default [] (odict.get env_name (prepends s)) in
    if bool_decide (env_data ∈ prepends_x) then
      ret (with_sections p
             (with_prepends s
                (odict.update env_name (list_remove env_data prepends_x)
                   (prepends s))))
    else
      print (env_data +:+ " not in " +:+ env_name +:+ " prepend variable") ;;;
      ret p
  else
    print (env_name +:+ " is not a prepend variable") ;;;
    ret p.

Definition add_deps (ds : str_or_list) (p : Package) : Package :=
  let ds := as_list ds in
  foldl (λ p dep,
           with_sections p
             (with_deps (sections p) (odict.set dep true (deps (sections p)))))
        p ds.

Definition pop_deps (ds : str_or_list) (p : Package) : M Package :=
  let ds := as_list ds in
  let p :=
    foldl (λ p dep,
             if odict.mem dep (deps (sections p))
             then with_sections p
                    (with_deps (sections p) (odict.del dep (deps (sections p))))
             else p)
          p ds in
  save p ;;;
  ret p.

Definition ls_deps (p : Package) : M unit :=
  for_each (odict.keys (deps (sections p))) (λ _ dep, print dep) ().

(** ** class ScriptLoader

    The abstract base: [module_load] and [module_unload] are written once
    against the three abstract methods, which a dialect supplies. *)

Class ScriptLoaderOps := {
  loader_set_env : string → string → M string;
  loader_prepend_env : string → list string → M string;
  loader_unset_env : string → M string
}.

Section ScriptLoader.
Context `{ScriptLoaderOps}.

(** Python truth of [os.environ.get(name)]: set, and not the empty string. *)
Definition truthy (v : option string) : bool :=
  match v with
  | Some (String _ _) => true
  | Some EmptyString | None => false
  end.

Definition is_loaded (p : Package) : M bool :=
  v <- environ_get (mod_load_name p) ;;
  if truthy v then ret true else ret false.

Definition module_load (p : Package) : M string :=
  (* Verify that the module is not loaded *)
  loaded <- is_loaded p ;;
  (if loaded
   then print ("Module " +:+ name p +:+ " is already loaded") ;;; exit 1
   else ret ()) ;;;
  let envs := [] in
  (* Process setenvs *)
  envs <- for_each (setenvs (sections p))
            (λ envs '(env, env_data),
               line <- loader_set_env env env_data ;; ret (envs ++ [line]))
            envs ;;
  (* Process prepends *)
  envs <- for_each (prepends (sections p))
            (λ envs '(env, values),
               match values with
               | _ :: _ =>
                   line <- loader_prepend_env env values ;; ret (envs ++ [line])
               | [] => ret envs
               end)
            envs ;;
  (* Mark this module as loaded *)
  line <- loader_set_env (mod_load_name p) "1" ;;
  let envs := envs ++ [line] in
  ret (Py.join Py.nl envs).

Definition module_unload (p : Package) : M string :=
  (* Verify that the module is loaded *)
  loaded <- is_loaded p ;;
  (if negb loaded
   then print ("Module " +:+ name p +:+ " is not loaded") ;;; exit 1
   else ret ()) ;;;
  let envs := [] in
  (* Process setenvs *)
  envs <- for_each (odict.keys (setenvs (sections p)))
            (λ envs env,
               line <- loader_unset_env env ;; ret (envs ++ [line]))
            envs ;;
  (* Process prepends *)
  envs <- for_each (prepends (sections p))
            (λ envs '(env, values),
               match values with
               | _ :: _ =>
                   let path_str := Py.join ":" values in
                   present <- environ_mem env ;;
                   if present then
                     old <- environ_item env ;;
                     environ_set env (Py.strip ":" (Py.replace path_str "" old)) ;;;
                     new <- environ_item env ;;
                     line <- loader_set_env env new ;;
                     ret (envs ++ [line])
                   else ret envs
               | [] => ret envs
               end)
            envs ;;
  (* Mark this module as unloaded: the line is computed and dropped *)
  _ <- loader_unset_env (mod_load_name p) ;;
  ret (Py.join Py.nl envs).

End ScriptLoader.

(** ** class BashLoader *)

Module BashLoader.

Definition set_env (env_name env_data : string) : M string :=
  ret ("export " +:+ env_name +:+ "=" +:+ env_data).

Definition prepend_env (env_name : string) (values : list string) : M string :=
  let path_str := Py.join ":" values in
  env_val <- environ_item env_name ;;
  present <- environ_mem env_name ;;
  if present
  then ret ("export " +:+ env_name +:+ "=" +:+ path_str +:+ ":" +:+ env_val)
  else ret ("export " +:+ env_name +:+ "=" +:+ path_str).

Definition unset_env (env_name : string) : M string :=
  ret ("unset " +:+ env_name).

#[global] Instance ops : ScriptLoaderOps := {|
  loader_set_env := set_env;
  loader_prepend_env := prepend_env;
  loader_unset_env := unset_env
|}.

End BashLoader.

(** [Package.get_script_loader], [Package.module_load] and
    [Package.module_unload]: only the bash module type has a loader. *)
Definition get_script_loader (p : Package) : M (option ScriptLoaderOps) :=
  match module_type (scspkg p) with
  | TCL =>
      print ("Use " +:+ String (ascii_of_nat 34) "module load instead"
             +:+ String (ascii_of_nat 34) " of "
             +:+ String (ascii_of_nat 34) "scspkg module load"
             +:+ String (ascii_of_nat 34) "") ;;;
      ret None
  | BASH => ret (Some BashLoader.ops)
  | OTHER shown => print ("Error: Unknown module type " +:+ shown) ;;; ret None
  end.

Definition Package_module_load (p : Package) : M (option string) :=
  scripter <- get_script_loader p ;;
  match scripter with
  | None => ret None
  | Some ops => script <- @module_load ops p ;; ret (Some script)
  end.

Definition Package_module_unload (p : Package) : M (option string) :=
  scripter <- get_script_loader p ;;
  match scripter with
  | None => ret None
  | Some ops => script <- @module_unload ops p ;; ret (Some script)
  end.

(** ** Sequences of accessor calls *)

Inductive op :=
  | OpSetEnv (env_name env_data : string)
  | OpPrependEnv (env_name : string) (env_data : str_or_list)
  | OpRmEnv (env_name : string)
  | OpPopPrepend (env_name env_data : string)
  | OpAddDeps (ds : str_or_list)
  | OpPopDeps (ds : str_or_list)
  | OpResetConfig.

Definition step (p : Package) (o : op) : M Package :=
  match o with
  | OpSetEnv x v => ret (set_env x v p)
  | OpPrependEnv x d => ret (prepend_env x d p)
  | OpRmEnv x => ret (rm_env x p)
  | OpPopPrepend x v => pop_prepend x v p
  | OpAddDeps ds => ret (add_deps ds p)
  | OpPopDeps ds => pop_deps ds p
  | OpResetConfig => ret (reset_config p)
  end.

Definition run (ops : list op) (p : Package) : M Package :=
  for_each ops step p.

(** No name is a key of both [setenvs] and [prepends]. *)
Definition no_conflict (s : Sections) : Prop :=
  ∀ x, ¬ (odict.mem x (setenvs s) = true ∧ odict.mem x (prepends s) = true).

(** A call of [prepend_env] is fresh when its name is not a key of
    [setenvs] at that moment; [prepends_fresh] asks it of every
    [prepend_env] of a sequence, along its run. *)
Definition fresh_prepend (p : Package) (o : op) : bool :=
  match o with
  | OpPrependEnv x _ => negb (odict.mem x (setenvs (sections p)))
  | _ => true
  end.

Fixpoint prepends_fresh (ops : list op) (p : Package) (w : process) : bool :=
  match ops with
  | [] => true
  | o :: r =>
      fresh_prepend p o &&
      match step p o w with
      | (Ok p', w') => prepends_fresh r p' w'
      | (Raise _, _) => true
      end
  end.

Definition sections_wf (s : Sections) : Prop :=
  odict.wf (doc s) ∧ odict.wf (deps s) ∧ odict.wf (setenvs s) ∧
  odict.wf (prepends s) ∧ ∀ a, appends s = Some a → odict.wf a.

(** ** The renderings as the specification words them *)

Definition whatis_line (kv : string * string) : string :=
  "module-whatis '" +:+ kv.1 +:+ ": " +:+ kv.2 +:+ "'".
Definition module_load_line (dep : string) : string := "module load " +:+ dep.
Definition setenv_line (kv : string * string) : string :=
  "setenv " +:+ kv.1 +:+ " " +:+ kv.2.
Definition prepend_path_line (env fragment : string) : string :=
  "prepend-path " +:+ env +:+ " " +:+ fragment.

Definition nonempty {A} (l : list A) : bool :=
  match l with
  | [] => false
  | _ :: _ => true
  end.

(** Header, one line per doc entry, one per dependency, one per setenvs
    entry, then one per fragment of every prepends entry that has fragments. *)
Definition tcl_render_spec (s : Sections) : list string :=
  ["#%Module1.0"]
  ++ map whatis_line (doc s)
  ++ map module_load_line (odict.keys (deps s))
  ++ map setenv_line (setenvs s)
  ++ concat (map (λ kv, map (prepend_path_line kv.1) kv.2)
               (filter (λ kv, nonempty kv.2 = true) (prepends s))).

(** The value that unloading re-assigns to the variable of one prepends
    entry, from the runtime environment [env]: the runtime value without the
    joined fragments and without leading and trailing separators; nothing
    for an entry without fragments or a variable that is not set. *)
Definition unload_value (env : gmap string string)
    (kv : string * list string) : option string :=
  if nonempty kv.2 then
    (λ v, Py.strip ":" (Py.replace (Py.join ":" kv.2) "" v)) <$> env !! kv.1
  else None.

Definition unload_reassign (env : gmap string string)
    (kv : string * list string) : option string :=
  (λ v, "export " +:+ kv.1 +:+ "=" +:+ v) <$> unload_value env kv.

(** One unset line per setenvs key, then the re-assignments. *)
Definition unload_spec (s : Sections) (env : gmap string string) : list string :=
  map (λ k, "unset " +:+ k) (odict.keys (setenvs s))
  ++ omap (unload_reassign env) (prepends s).

(** The process environment once the unload script has been computed. *)
Definition unload_environ (s : Sections) (env : gmap string string)
    : gmap string string :=
  foldl (λ env kv,
           match unload_value env kv with
           | Some v => <[kv.1 := v]> env
           | None => env
           end)
        env (prepends s).

(** The load script where every prepended variable is set: one assignment
    per setenvs entry, one prepend per prepends entry with fragments, then
    the assignment of the flag. *)
Definition load_prepend (env : gmap string string)
    (kv : string * list string) : option string :=
  if nonempty kv.2 then
    (λ v, "export " +:+ kv.1 +:+ "=" +:+ Py.join ":" kv.2 +:+ ":" +:+ v)
      <$> env !! kv.1
  else None.

Definition load_spec (p : Package) (env : gmap string string) : list string :=
  map (λ kv, "export " +:+ kv.1 +:+ "=" +:+ kv.2) (setenvs (sections p))
  ++ omap (load_prepend env) (prepends (sections p))
  ++ ["export " +:+ mod_load_name p +:+ "=1"].

(** Every prepended variable with fragments is set in [env]. *)
Definition prepends_set (s : Sections) (env : gmap string string) : Prop :=
  Forall (λ kv : string * list string,
            nonempty kv.2 = true → is_Some (env !! kv.1))
         (prepends s).

(** ** Reading a package back, and rebuilding it from a profile *)

Section external.

(** Library code the three methods below call, taken as given:
    [json.dumps(sections, indent=4)], the text of a document that
    [YamlFile.save] has written, and [ScspkgManager.build_profile], which
    returns the profile as a dictionary from names to values. *)
Variable json_dumps : Sections → string.
Variable yaml_text : Sections → string.
Variable manager_build_profile : option string → M (odict.t str_or_list).




(** When an [append_env] raises, the source has already replaced the
    sections of the object by the skeleton; the model returns no package in
    that case. *)
Definition build_profile (path : option string) (rebuild : bool)
    (p : Package) : M Package :=
  profile <- manager_build_profile path ;;
  if rebuild then
    let p := reset_config p in
    for_each profile
      (λ p '(env_key, env_data), append_env env_key env_data p) p
  else ret p.

End external.

(** ** The bash rendering as a list of groups *)

Definition bash_doc_line (kv : string * string) : string :=
  "# " +:+ String (ascii_of_nat 34) "" +:+ kv.1 +:+ ": " +:+ kv.2
  +:+ String (ascii_of_nat 34) "".
Definition bash_dep_line (dep : string) : string :=
  "$(scspkg module load " +:+ dep +:+ ")".

Definition bash_render_spec (s : Sections) : list string :=
  ["#!/bin/bash"]
  ++ map bash_doc_line (doc s)
  ++ map bash_dep_line (odict.keys (deps s))
  ++ ["$(scspkg module load )"].

(** [p in s] for strings: [p] starts at some position of [s]. *)
Fixpoint occurs (p s : string) : bool :=
  Py.startswith p s ||
  match s with
  | EmptyString => false
  | String _ s' => occurs p s'
  end.

(** ** Dictionaries changed at several keys *)

(** [for k in l: d[k] = True] *)
Definition set_all (l : list string) (d : odict.t bool) : odict.t bool :=
  foldl (λ d dep, odict.set dep true d) d l.

(** ** Sample packages and processes *)

Definition mgr_bash : ScspkgManager := mkManager "/opt" "/modules" BASH.

Definition no_sections : Sections := mkSections [] [] [] [] None.

(** Package [foo] with the default skeleton. *)
Definition foo : Package := reset_config (mkPackage mgr_bash "foo" no_sections).

(** Package [foo] with nothing to set or prepend. *)
Definition foo_empty : Package := mkPackage mgr_bash "foo" no_sections.

(** Package [foo] with one assignment and one prepended path. *)
Definition foo_x : Package :=
  mkPackage mgr_bash "foo"
    (mkSections [] [] [("FOO_HOME", "/opt/foo")] [("PATH", ["/x/bin"])] None).

(** Package [foo] that prepends one directory to [PATH]. *)
Definition foo_path : Package :=
  mkPackage mgr_bash "foo" (mkSections [] [] [] [("PATH", ["/x/bin"])] None).

(** Package [foo] with an empty [appends] section. *)
Definition foo_appends : Package :=
  mkPackage mgr_bash "foo" (mkSections [] [] [] [] (Some [])).

Definition process_of (env : gmap string string) : process :=
  mkProcess env [] ∅.

(** * Properties *)

(** ** The string primitives on Python's own examples *)

Example replace_leftmost_first : Py.replace "aa" "b" "aaaaa" = "bba".
Proof. reflexivity. Qed.

Example replace_removes_every_occurrence :
  Py.replace "/x" "" "/x:/usr:/x" = ":/usr:".
Proof. reflexivity. Qed.

Example replace_empty_pattern : Py.replace "" "-" "abc" = "-a-b-c-".
Proof. reflexivity. Qed.

Example strip_both_ends : Py.strip ":" "::a:b::" = "a:b".
Proof. reflexivity. Qed.

Example strip_everything : Py.strip ":" ":::" = "".
Proof. reflexivity. Qed.

Example join_three : Py.join ":" ["a"; "b"; "c"] = "a:b:c".
Proof. reflexivity. Qed.

Example path_join_plain : Py.path_join "/opt/foo" "bin" = "/opt/foo/bin".
Proof. reflexivity. Qed.

Example path_join_trailing_slash : Py.path_join "/opt/foo/" "bin" = "/opt/foo/bin".
Proof. reflexivity. Qed.

Example path_join_absolute : Py.path_join "/opt/foo" "/bin" = "/bin".
Proof. reflexivity. Qed.

Lemma replace_with_empty_pattern (s : string) : Py.replace "" "" s = s.
Proof.
  unfold Py.replace. induction s as [|c s IH]; [done|].
  cbn. by rewrite IH.
Qed.

(** ** Dictionaries *)

Section odict_facts.
Context {V : Type}.
Implicit Types (d : odict.t V) (k : string) (v : V).

Lemma mem_spec k d : odict.mem k d = true ↔ k ∈ odict.keys d.
Proof. unfold odict.mem. by rewrite bool_decide_eq_true. Qed.

Lemma mem_cons k k' v d :
  odict.mem k ((k', v) :: d) = bool_decide (k' = k) || odict.mem k d.
Proof.
  unfold odict.mem, odict.keys. cbn [fmap list_fmap fst].
  apply eq_true_iff_eq.
  rewrite orb_true_iff, !bool_decide_eq_true, elem_of_cons.
  split; (intros [?|?]; [left|right]); congruence.
Qed.

Lemma get_none_mem k d : odict.get k d = None ↔ odict.mem k d = false.
Proof.
  induction d as [|[k' v'] d IH]; [done|].
  rewrite mem_cons. cbn [odict.get].
  destruct (decide (k' = k)) as [->|Hne].
  - rewrite bool_decide_eq_true_2 by done. by split.
  - rewrite bool_decide_eq_false_2 by done. exact IH.
Qed.

Lemma keys_update k v d : odict.keys (odict.update k v d) = odict.keys d.
Proof.
  unfold odict.keys.
  induction d as [|[k' v'] d IH]; [done|].
  cbn [odict.update]. destruct (decide (k' = k)); [done|].
  cbn [fmap list_fmap fst]. f_equal. exact IH.
Qed.

Lemma get_update k k' v d :
  odict.get k' (odict.update k v d) =
  if decide (k' = k) then (λ _, v) <$> odict.get k d else odict.get k' d.
Proof.
  induction d as [|[k0 v0] d IH]; [by destruct (decide (k' = k))|].
  cbn [odict.update odict.get].
  destruct (decide (k0 = k)) as [->|Hne]; cbn [odict.get].
  - destruct (decide (k = k')) as [->|Hne'].
    + by rewrite decide_True.
    + by rewrite decide_False by congruence.
  - rewrite IH. destruct (decide (k0 = k')) as [->|Hne'].
    + by rewrite decide_False by congruence.
    + done.
Qed.

Lemma get_app_fresh k k' v d :
  odict.get k' (d ++ [(k, v)]) =
  match odict.get k' d with
  | Some v' => Some v'
  | None => if decide (k' = k) then Some v else None
  end.
Proof.
  induction d as [|[k0 v0] d IH].
  - cbn. destruct (decide (k = k')) as [->|?].
    + by rewrite decide_True.
    + by rewrite decide_False by congruence.
  - cbn [app odict.get]. by destruct (decide (k0 = k')).
Qed.

Lemma get_set k k' v d :
  odict.get k' (odict.set k v d) =
  if decide (k' = k) then Some v else odict.get k' d.
Proof.
  unfold odict.set. destruct (odict.mem k d) eqn:Hm.
  - rewrite get_update. destruct (decide (k' = k)); [|done].
    destruct (odict.get k d) eqn:Hg; [done|].
    apply get_none_mem in Hg. congruence.
  - rewrite get_app_fresh. apply get_none_mem in Hm.
    destruct (decide (k' = k)) as [->|?].
    + by rewrite Hm.
    + by destruct (odict.get k' d).
Qed.

Lemma keys_set k v d :
  odict.keys (odict.set k v d) =
  if odict.mem k d then odict.keys d else odict.keys d ++ [k].
Proof.
  unfold odict.set. destruct (odict.mem k d).
  - apply keys_update.
  - unfold odict.keys. by rewrite fmap_app.
Qed.

Lemma mem_set k k' v d :
  odict.mem k' (odict.set k v d) = bool_decide (k' = k) || odict.mem k' d.
Proof.
  apply eq_true_iff_eq.
  rewrite orb_true_iff, bool_decide_eq_true, !mem_spec, keys_set.
  destruct (odict.mem k d) eqn:Hm.
  - apply mem_spec in Hm. split; [by right|]. by intros [->|?].
  - rewrite elem_of_app, list_elem_of_singleton. tauto.
Qed.

Lemma keys_del k d :
  odict.keys (odict.del k d) = filter (λ k', k' ≠ k) (odict.keys d).
Proof.
  unfold odict.keys, odict.del.
  induction d as [|[k0 v0] d IH]; [done|].
  rewrite fmap_cons. cbn [fst].
  destruct (decide (k0 ≠ k)) as [Hne|Heq].
  - rewrite (filter_cons_True (λ kv : string * V, kv.1 ≠ k)) by done.
    rewrite filter_cons_True by done. rewrite fmap_cons. cbn [fst].
    f_equal. exact IH.
  - rewrite (filter_cons_False (λ kv : string * V, kv.1 ≠ k)) by done.
    rewrite filter_cons_False by done. exact IH.
Qed.

Lemma mem_del k k' d :
  odict.mem k' (odict.del k d) = negb (bool_decide (k' = k)) && odict.mem k' d.
Proof.
  apply eq_true_iff_eq.
  rewrite andb_true_iff, negb_true_iff, bool_decide_eq_false, !mem_spec.
  rewrite keys_del, list_elem_of_filter. naive_solver.
Qed.

Lemma get_del k k' d :
  odict.get k' (odict.del k d) =
  if decide (k' = k) then None else odict.get k' d.
Proof.
  destruct (decide (k' = k)) as [->|Hne].
  - apply get_none_mem. rewrite mem_del.
    by rewrite bool_decide_eq_true_2.
  - unfold odict.del. induction d as [|[k0 v0] d IH]; [done|].
    rewrite filter_cons. cbn [fst odict.get].
    destruct (decide (k0 ≠ k)) as [?|Heq]; cbn [odict.get].
    + by rewrite IH.
    + apply dec_stable in Heq. subst k0.
      by rewrite decide_False by congruence.
Qed.

Lemma wf_update k v d : odict.wf d → odict.wf (odict.update k v d).
Proof. unfold odict.wf. by rewrite keys_update. Qed.

Lemma wf_set k v d : odict.wf d → odict.wf (odict.set k v d).
Proof.
  unfold odict.wf. rewrite keys_set. destruct (odict.mem k d) eqn:Hm; [done|].
  intros Hd. apply NoDup_app. split_and!; [done| |apply NoDup_singleton].
  intros x Hx ->%list_elem_of_singleton.
  apply mem_spec in Hx. congruence.
Qed.

Lemma wf_del k d : odict.wf d → odict.wf (odict.del k d).
Proof. unfold odict.wf. rewrite keys_del. apply NoDup_filter. Qed.

End odict_facts.

(** ** The static TCL rendering *)

Lemma append_lines_map {A} (line : A → string) (l : list A) (module : list string) :
  append_lines line l module = module ++ map line l.
Proof.
  unfold append_lines. revert module.
  induction l as [|x l IH]; intros module; cbn [foldl map].
  - by rewrite app_nil_r.
  - by rewrite IH, <- app_assoc.
Qed.

Lemma prepend_lines_concat (l : odict.t (list string)) (module : list string) :
  foldl (λ module '(env, values),
           append_lines (λ env_data, "prepend-path " +:+ env +:+ " " +:+ env_data)
                        values module)
        module l
  = module ++ concat (map (λ kv, map (prepend_path_line kv.1) kv.2)
                        (filter (λ kv, nonempty kv.2 = true) l)).
Proof.
  revert module. induction l as [|[env values] l IH]; intros module.
  - by rewrite app_nil_r.
  - cbn [foldl]. rewrite IH, append_lines_map.
    destruct values as [|v values].
    + rewrite filter_cons_False by (cbn; congruence).
      by rewrite app_nil_r.
    + rewrite filter_cons_True by done.
      cbn [map concat fst snd]. by rewrite <- app_assoc.
Qed.

Lemma concat_length_nonempty (l : odict.t (list string)) :
  length (concat (map (λ kv, map (prepend_path_line kv.1) kv.2)
                    (filter (λ kv, nonempty kv.2 = true) l)))
  = sum_list (map (λ kv, length kv.2) l).
Proof.
  induction l as [|[env values] l IH]; [done|].
  destruct values as [|v values].
  - rewrite filter_cons_False by (cbn; congruence). exact IH.
  - rewrite filter_cons_True by done.
    cbn [map concat fst snd sum_list foldr]. rewrite length_app, IH.
    cbn [length]. by rewrite length_map.
Qed.

(** C9. The TCL modulefile written by [_save_as_tcl] is a function of the
    sections alone and consists of exactly: the header line, one
    [module-whatis] line per doc entry, one [module load] line per
    dependency, one [setenv] line per setenvs entry and one [prepend-path]
    line per fragment of every prepends entry that has fragments, in that
    order and each group in insertion order; the lines are joined with
    newlines and written to the module path. *)
Theorem save_as_tcl_render (p : Package) (w : process) :
  tcl_lines (sections p) = tcl_render_spec (sections p)
  ∧ _save_as_tcl p w =
      (Ok (),
       mkProcess (environ w) (stdout w)
         (<[module_path p :=
              Text (Py.join Py.nl (tcl_render_spec (sections p)))]> (files w)))
  ∧ length (tcl_render_spec (sections p)) =
      1 + length (doc (sections p)) + length (deps (sections p))
      + length (setenvs (sections p))
      + sum_list (map (λ kv, length kv.2) (prepends (sections p))).
Proof.
  assert (Hl : tcl_lines (sections p) = tcl_render_spec (sections p)).
  { unfold tcl_lines, tcl_render_spec.
    rewrite prepend_lines_concat, !append_lines_map.
    rewrite <- !app_assoc. cbn [app]. f_equal.
    apply (f_equal2 app); [apply map_ext; by intros [??]|].
    apply (f_equal2 app); [done|].
    apply (f_equal2 app); [apply map_ext; by intros [??]|done]. }
  split_and!.
  - exact Hl.
  - unfold _save_as_tcl, write_file. by rewrite Hl.
  - unfold tcl_render_spec. cbn [app length].
    rewrite !length_app, !length_map, concat_length_nonempty.
    unfold odict.keys. rewrite length_fmap. lia.
Qed.

(** ** The accessors *)

Lemma del_not_mem {V} (k : string) (d : odict.t V) :
  odict.mem k d = false → odict.del k d = d.
Proof.
  unfold odict.del. induction d as [|[k0 v0] d IH]; [done|].
  rewrite mem_cons, orb_false_iff, bool_decide_eq_false. intros [Hne Hm].
  rewrite filter_cons_True by done. by rewrite IH.
Qed.

Lemma set_env_sections (p : Package) (x v : string) :
  sections (set_env x v p) =
  mkSections (doc (sections p)) (deps (sections p))
    (odict.set x v (setenvs (sections p)))
    (odict.del x (prepends (sections p)))
    (appends (sections p)).
Proof.
  unfold set_env. cbn.
  destruct (odict.mem x (prepends (sections p))) eqn:Hm; cbn; [done|].
  by rewrite del_not_mem.
Qed.

(** C4. After [set_env x v] the setenvs section maps [x] to [v] and the
    prepends section has no key [x]; every other entry of setenvs and of
    prepends is as before (the prepends section is the old one without the
    entry of [x], in the same order), and the other sections are untouched. *)
Theorem set_env_spec (p : Package) (x v : string) :
  let s := sections p in
  let s' := sections (set_env x v p) in
  odict.get x (setenvs s') = Some v
  ∧ odict.mem x (prepends s') = false
  ∧ (∀ y, odict.get y (setenvs s') =
          if decide (y = x) then Some v else odict.get y (setenvs s))
  ∧ (∀ y, odict.get y (prepends s') =
          if decide (y = x) then None else odict.get y (prepends s))
  ∧ prepends s' = filter (λ kv, kv.1 ≠ x) (prepends s)
  ∧ doc s' = doc s ∧ deps s' = deps s ∧ appends s' = appends s.
Proof.
  cbn zeta. rewrite set_env_sections. cbn [doc deps setenvs prepends appends].
  split_and!; try done.
  - by rewrite get_set, decide_True.
  - by rewrite mem_del, bool_decide_eq_true_2.
  - intros y. apply get_set.
  - intros y. apply get_del.
Qed.

Lemma prepend_env_sections (p : Package) (x : string) (d : str_or_list) :
  sections (prepend_env x d p) =
  with_prepends (sections p)
    (odict.set x (default [] (odict.get x (prepends (sections p))) ++ as_list d)
       (if odict.mem x (prepends (sections p))
        then prepends (sections p)
        else odict.set x [] (prepends (sections p)))).
Proof.
  unfold prepend_env. cbn.
  destruct (odict.mem x (prepends (sections p))) eqn:Hm; cbn; [done|].
  rewrite get_set, decide_True by done.
  apply get_none_mem in Hm. by rewrite Hm.
Qed.

Lemma prepend_env_get (p : Package) (x : string) (d : str_or_list) :
  odict.get x (prepends (sections (prepend_env x d p))) =
  Some (default [] (odict.get x (prepends (sections p))) ++ as_list d).
Proof.
  rewrite prepend_env_sections. cbn. by rewrite get_set, decide_True.
Qed.

(** C6, as the code has it.  [prepend_env] takes a string as the list of
    that one string, starts a missing name from the empty sequence, and puts
    the new fragments after the ones the name already has: after
    [prepend_env x a] and [prepend_env x b] the entry of [x] is the former
    entry (empty when there was none) followed by [a] and then [b]. *)
Theorem prepend_env_twice (p : Package) (x s : string) (a b : list string) :
  let old := default [] (odict.get x (prepends (sections p))) in
  prepend_env x (Str s) p = prepend_env x (Lst [s]) p
  ∧ odict.get x (prepends (sections (prepend_env x (Lst []) p))) = Some old
  ∧ odict.get x (prepends (sections
        (prepend_env x (Lst b) (prepend_env x (Lst a) p))))
    = Some (old ++ a ++ b).
Proof.
  cbn zeta. split_and!.
  - done.
  - by rewrite prepend_env_get, app_nil_r.
  - rewrite !prepend_env_get. cbn. by rewrite app_assoc.
Qed.

(** C6 fails as stated where the name already has fragments: in the default
    skeleton [PATH] has two, and they stay in front. *)
Lemma prepend_env_twice_keeps_old :
  odict.get "PATH" (prepends (sections
      (prepend_env "PATH" (Lst ["b"]) (prepend_env "PATH" (Lst ["a"]) foo))))
  = Some ["/opt/foo/bin"; "/opt/foo/sbin"; "a"; "b"]
  ∧ odict.get "PATH" (prepends (sections
      (prepend_env "PATH" (Lst ["b"]) (prepend_env "PATH" (Lst ["a"]) foo))))
  ≠ Some ["a"; "b"].
Proof. split; [by vm_compute|]. vm_compute. discriminate. Qed.

(** ** The setenvs / prepends invariant along sequences of calls *)

Lemma no_conflict_shrink (s s' : Sections) :
  (∀ y, odict.mem y (setenvs s') = true → odict.mem y (setenvs s) = true) →
  (∀ y, odict.mem y (prepends s') = true → odict.mem y (prepends s) = true) →
  no_conflict s → no_conflict s'.
Proof. intros Hs Hp Hn y [H1 H2]. apply (Hn y). auto. Qed.

Lemma set_env_no_conflict (p : Package) (x v : string) :
  no_conflict (sections p) → no_conflict (sections (set_env x v p)).
Proof.
  intros Hn y. rewrite set_env_sections. cbn [setenvs prepends].
  rewrite mem_set, mem_del. intros [H1 H2].
  apply andb_true_iff in H2 as [Hne H2].
  apply negb_true_iff in Hne. rewrite Hne in H1. cbn in H1.
  by apply (Hn y).
Qed.

Lemma prepend_env_mem (p : Package) (x y : string) (d : str_or_list) :
  odict.mem y (prepends (sections (prepend_env x d p))) =
  bool_decide (y = x) || odict.mem y (prepends (sections p)).
Proof.
  rewrite prepend_env_sections. cbn [prepends with_prepends]. rewrite mem_set.
  destruct (odict.mem x (prepends (sections p))); [done|].
  rewrite mem_set. by destruct (bool_decide (y = x)).
Qed.

Lemma prepend_env_no_conflict (p : Package) (x : string) (d : str_or_list) :
  odict.mem x (setenvs (sections p)) = false →
  no_conflict (sections p) → no_conflict (sections (prepend_env x d p)).
Proof.
  intros Hx Hn y [H1 H2]. rewrite prepend_env_mem in H2.
  rewrite prepend_env_sections in H1. cbn [setenvs with_prepends] in H1.
  apply orb_true_iff in H2 as [Heq|H2].
  - apply bool_decide_eq_true in Heq. subst y. congruence.
  - by apply (Hn y).
Qed.

Lemma rm_env_sections (p : Package) (x : string) :
  sections (rm_env x p) =
  mkSections (doc (sections p)) (deps (sections p))
    (odict.del x (setenvs (sections p)))
    (odict.del x (prepends (sections p)))
    (appends (sections p)).
Proof.
  unfold rm_env.
  destruct (odict.mem x (setenvs (sections p))) eqn:Hs;
    cbn [sections with_sections with_setenvs with_prepends
         doc deps setenvs prepends appends];
    destruct (odict.mem x (prepends (sections p))) eqn:Hp;
    cbn [sections with_sections with_setenvs with_prepends
         doc deps setenvs prepends appends];
    rewrite ?(del_not_mem _ _ Hs), ?(del_not_mem _ _ Hp);
    by destruct (sections p).
Qed.

Lemma rm_env_no_conflict (p : Package) (x : string) :
  no_conflict (sections p) → no_conflict (sections (rm_env x p)).
Proof.
  apply no_conflict_shrink; intros y; rewrite rm_env_sections;
    cbn [setenvs prepends]; rewrite mem_del; by intros [_ ?]%andb_true_iff.
Qed.

Lemma pop_prepend_ok (p : Package) (x v : string) (w : process) :
  ∃ p' w', pop_prepend x v p w = (Ok p', w')
    ∧ setenvs (sections p') = setenvs (sections p)
    ∧ odict.keys (prepends (sections p')) = odict.keys (prepends (sections p)).
Proof.
  unfold pop_prepend.
  destruct (odict.mem x (prepends (sections p))).
  - case_bool_decide.
    + eexists _, _. split; [reflexivity|].
      cbn [sections with_sections with_prepends setenvs prepends].
      by rewrite keys_update.
    + eexists _, _. split; [reflexivity|]. done.
  - eexists _, _. split; [reflexivity|]. done.
Qed.

Lemma add_deps_sections (ds : str_or_list) (p : Package) :
  setenvs (sections (add_deps ds p)) = setenvs (sections p)
  ∧ prepends (sections (add_deps ds p)) = prepends (sections p).
Proof.
  unfold add_deps. generalize (as_list ds). intros l. revert p.
  induction l as [|dep l IH]; intros p; [done|].
  cbn [foldl]. destruct (IH (with_sections p (with_deps (sections p)
    (odict.set dep true (deps (sections p)))))) as [-> ->]. done.
Qed.

Lemma save_ok (p : Package) (w : process) : ∃ w', save p w = (Ok p, w').
Proof.
  unfold save, bind, write_file, ret.
  destruct (module_type (scspkg p)); cbn; eauto.
Qed.

Lemma pop_deps_ok (ds : str_or_list) (p : Package) (w : process) :
  ∃ p' w', pop_deps ds p w = (Ok p', w')
    ∧ setenvs (sections p') = setenvs (sections p)
    ∧ prepends (sections p') = prepends (sections p).
Proof.
  unfold pop_deps. generalize (as_list ds). intros l.
  set (body := λ (p : Package) (dep : string), _).
  destruct (save_ok (foldl body p l) w) as [w' Hs].
  exists (foldl body p l), w'. split.
  - unfold bind. by rewrite Hs.
  - clear. revert p. induction l as [|dep l IH]; intros p; [done|].
    cbn [foldl]. destruct (IH (body p dep)) as [-> ->].
    unfold body. by destruct (odict.mem dep (deps (sections p))).
Qed.

Lemma step_no_conflict (p : Package) (o : op) (w : process) :
  no_conflict (sections p) → fresh_prepend p o = true →
  ∃ p' w', step p o w = (Ok p', w') ∧ no_conflict (sections p').
Proof.
  intros Hn Hf. destruct o as [x v|x d|x|x v|ds|ds|]; cbn [step].
  - eexists _, _. split; [reflexivity|]. by apply set_env_no_conflict.
  - eexists _, _. split; [reflexivity|].
    apply prepend_env_no_conflict; [|done].
    cbn in Hf. by apply negb_true_iff in Hf.
  - eexists _, _. split; [reflexivity|]. by apply rm_env_no_conflict.
  - destruct (pop_prepend_ok p x v w) as (p' & w' & -> & Hs & Hk).
    eexists _, _. split; [reflexivity|].
    revert Hn. apply no_conflict_shrink; intros y.
    + by rewrite Hs.
    + by rewrite !mem_spec, Hk.
  - eexists _, _. split; [reflexivity|].
    destruct (add_deps_sections ds p) as [Hs Hp].
    revert Hn. apply no_conflict_shrink; intros y; by rewrite ?Hs, ?Hp.
  - destruct (pop_deps_ok ds p w) as (p' & w' & -> & Hs & Hp).
    eexists _, _. split; [reflexivity|].
    revert Hn. apply no_conflict_shrink; intros y; by rewrite ?Hs, ?Hp.
  - eexists _, _. split; [reflexivity|]. by intros y [? _].
Qed.

Lemma run_no_conflict_from (ops : list op) (p : Package) (w : process) :
  no_conflict (sections p) → prepends_fresh ops p w = true →
  ∃ p' w', run ops p w = (Ok p', w') ∧ no_conflict (sections p').
Proof.
  revert p w. induction ops as [|o ops IH]; intros p w Hn Hf.
  - by exists p, w.
  - cbn [prepends_fresh] in Hf. apply andb_true_iff in Hf as [Ho Hf].
    destruct (step_no_conflict p o w Hn Ho) as (p1 & w1 & Hs & Hn1).
    rewrite Hs in Hf. destruct (IH p1 w1 Hn1 Hf) as (p' & w' & Hr & Hn').
    exists p', w'. split; [|done].
    unfold run in *. cbn [for_each]. unfold bind at 1. by rewrite Hs.
Qed.

(** C5, as the code has it.  From the default skeleton, every sequence of
    [set_env], [prepend_env], [rm_env], [pop_prepend], [add_deps],
    [pop_deps] and [reset_config] in which no [prepend_env] is called on a
    name that is a key of setenvs at that moment runs to the end and leaves
    no name that is a key of both setenvs and prepends. *)
Theorem run_no_conflict (ops : list op) (p : Package) (w : process) :
  prepends_fresh ops (reset_config p) w = true →
  ∃ p' w', run ops (reset_config p) w = (Ok p', w')
           ∧ no_conflict (sections p').
Proof.
  apply run_no_conflict_from. by intros y [? _].
Qed.

Lemma run_no_conflict_witness :
  prepends_fresh
    [OpPrependEnv "PATH" (Str "/x/bin"); OpSetEnv "PATH" "/usr/bin";
     OpPopPrepend "CPATH" "/inc"; OpAddDeps (Lst ["gcc"; "mpi"]);
     OpPopDeps (Str "gcc"); OpRmEnv "PATH"; OpPrependEnv "PATH" (Lst ["/y"]);
     OpResetConfig; OpSetEnv "CC" "gcc"]
    (reset_config foo_empty) (process_of ∅) = true
  ∧ ∃ p' w',
      run
        [OpPrependEnv "PATH" (Str "/x/bin"); OpSetEnv "PATH" "/usr/bin";
         OpPopPrepend "CPATH" "/inc"; OpAddDeps (Lst ["gcc"; "mpi"]);
         OpPopDeps (Str "gcc"); OpRmEnv "PATH"; OpPrependEnv "PATH" (Lst ["/y"]);
         OpResetConfig; OpSetEnv "CC" "gcc"]
        (reset_config foo_empty) (process_of ∅) = (Ok p', w')
      ∧ no_conflict (sections p').
Proof.
  split; [vm_compute; reflexivity|].
  apply (run_no_conflict _ foo_empty (process_of ∅)).
  vm_compute; reflexivity.
Defined.

(** C5 fails as stated: [prepend_env] does not look at setenvs, so
    prepending to a name that was set leaves it in both sections. *)
Lemma prepend_after_set_conflicts :
  run [OpSetEnv "FOO" "1"; OpPrependEnv "FOO" (Lst ["a"])] foo (process_of ∅)
  = (Ok (prepend_env "FOO" (Lst ["a"]) (set_env "FOO" "1" foo)), process_of ∅)
  ∧ odict.mem "FOO" (setenvs (sections
        (prepend_env "FOO" (Lst ["a"]) (set_env "FOO" "1" foo)))) = true
  ∧ odict.mem "FOO" (prepends (sections
        (prepend_env "FOO" (Lst ["a"]) (set_env "FOO" "1" foo)))) = true
  ∧ ¬ no_conflict (sections
        (prepend_env "FOO" (Lst ["a"]) (set_env "FOO" "1" foo))).
Proof.
  split_and!; try (vm_compute; reflexivity).
  intros Hn. apply (Hn "FOO"). split; vm_compute; reflexivity.
Qed.

(** ** [append_env] and the appends section *)

(** C7, where the code fails it.  On the sections that [reset_config]
    builds, [append_env] raises [KeyError] for the missing [appends] section
    whatever the name and the value, and changes nothing. *)
Theorem append_env_skeleton_raises (p : Package) (x : string)
    (d : str_or_list) (w : process) :
  append_env x d (reset_config p) w = (Raise (KeyError "appends"), w).
Proof. reflexivity. Qed.

Lemma append_env_ok (p : Package) (x : string) (d : str_or_list)
    (ap : odict.t (list string)) (w : process) :
  appends (sections p) = Some ap →
  ∃ ap', append_env x d p w =
           (Ok (with_sections p (with_appends (sections p) ap')), w)
         ∧ odict.get x ap' = Some (as_list d ++ default [] (odict.get x ap)).
Proof.
  intros Ha. unfold append_env, appends_section, bind. rewrite Ha.
  eexists. split; [reflexivity|].
  rewrite get_set, decide_True by done. do 2 f_equal.
  destruct (odict.mem x ap) eqn:Hm; cbn [negb]; [done|].
  rewrite get_set, decide_True by done.
  apply get_none_mem in Hm. by rewrite Hm.
Qed.

(** C8, as the code has it.  Where the appends section exists,
    [append_env] takes a string as the list of that one string and puts the
    new fragments before the ones the name already has: after
    [append_env x a] and [append_env x b] the entry of [x] is [b], then [a],
    then the former entry (empty when there was none). *)
Theorem append_env_twice (p : Package) (x s : string) (a b : list string)
    (ap : odict.t (list string)) (w : process) :
  appends (sections p) = Some ap →
  append_env x (Str s) p = append_env x (Lst [s]) p
  ∧ ∃ p2 ap2,
      (p1 <- append_env x (Lst a) p ;; append_env x (Lst b) p1) w = (Ok p2, w)
      ∧ appends (sections p2) = Some ap2
      ∧ odict.get x ap2 = Some (b ++ a ++ default [] (odict.get x ap)).
Proof.
  intros Ha. split; [done|].
  destruct (append_env_ok p x (Lst a) ap w Ha) as (ap1 & H1 & G1).
  set (p1 := with_sections p (with_appends (sections p) ap1)) in *.
  destruct (append_env_ok p1 x (Lst b) ap1 w eq_refl) as (ap2 & H2 & G2).
  eexists _, ap2. split_and!.
  - unfold bind at 1. rewrite H1. exact H2.
  - done.
  - rewrite G2, G1. done.
Qed.

Lemma append_env_twice_witness :
  appends (sections foo_appends) = Some []
  ∧ ∃ p2 ap2,
      (p1 <- append_env "CFLAGS" (Lst ["-O2"]) foo_appends ;;
       append_env "CFLAGS" (Lst ["-g"]) p1) (process_of ∅)
      = (Ok p2, process_of ∅)
      ∧ appends (sections p2) = Some ap2
      ∧ odict.get "CFLAGS" ap2 = Some (["-g"] ++ ["-O2"] ++ []).
Proof.
  split; [reflexivity|].
  apply (append_env_twice foo_appends "CFLAGS" "" ["-O2"] ["-g"] []
           (process_of ∅)).
  reflexivity.
Defined.

(** C8 fails as stated: the second fragment lands in front of the first. *)
Lemma append_env_twice_reverses :
  (p1 <- append_env "X" (Lst ["a"]) foo_appends ;;
   append_env "X" (Lst ["b"]) p1) (process_of ∅)
  = (Ok (with_sections foo_appends
           (with_appends (sections foo_appends) [("X", ["b"; "a"])])),
     process_of ∅)
  ∧ odict.get "X" [("X", ["b"; "a"])] = Some ["b"; "a"]
  ∧ odict.get "X" [("X", ["b"; "a"])] ≠ Some ["a"; "b"].
Proof. split_and!; [vm_compute; reflexivity..|discriminate]. Qed.

(** ** The load / unload state machine *)

Section guards.
Context `{ScriptLoaderOps}.

Lemma is_loaded_eq (p : Package) (w : process) :
  is_loaded p w = (Ok (truthy (environ w !! mod_load_name p)), w).
Proof.
  unfold is_loaded, bind, environ_get.
  by destruct (truthy (environ w !! mod_load_name p)).
Qed.

Lemma module_load_loaded (p : Package) (w : process) :
  truthy (environ w !! mod_load_name p) = true →
  module_load p w =
    (Raise (SystemExit 1),
     mkProcess (environ w)
       (stdout w ++ ["Module " +:+ name p +:+ " is already loaded"]) (files w)).
Proof.
  intros Ht. unfold module_load. unfold bind at 1.
  rewrite is_loaded_eq, Ht. reflexivity.
Qed.

Lemma module_unload_not_loaded (p : Package) (w : process) :
  truthy (environ w !! mod_load_name p) = false →
  module_unload p w =
    (Raise (SystemExit 1),
     mkProcess (environ w)
       (stdout w ++ ["Module " +:+ name p +:+ " is not loaded"]) (files w)).
Proof.
  intros Ht. unfold module_unload. unfold bind at 1.
  rewrite is_loaded_eq, Ht. reflexivity.
Qed.

End guards.

(** C1, as the code has it.  For every package and every dialect,
    [module_load] called when the flag variable is set to a non-empty value
    prints that the module is already loaded and exits with status 1, and
    [module_unload] called when the flag variable is absent prints that the
    module is not loaded and exits with status 1; in both cases no script is
    returned, and the environment and the files are as before (the message
    is the only effect). *)
Theorem load_unload_guard (ops : ScriptLoaderOps) (p : Package) (w : process) :
  (∀ v, environ w !! mod_load_name p = Some v → v ≠ "" →
     @module_load ops p w =
       (Raise (SystemExit 1),
        mkProcess (environ w)
          (stdout w ++ ["Module " +:+ name p +:+ " is already loaded"])
          (files w)))
  ∧ (environ w !! mod_load_name p = None →
     @module_unload ops p w =
       (Raise (SystemExit 1),
        mkProcess (environ w)
          (stdout w ++ ["Module " +:+ name p +:+ " is not loaded"])
          (files w))).
Proof.
  split.
  - intros v Hv Hne. apply module_load_loaded. rewrite Hv. by destruct v.
  - intros Hv. apply module_unload_not_loaded. by rewrite Hv.
Qed.

Lemma load_unload_guard_witness :
  (environ (process_of {[ "SCSPKG_foo_LOADED" := "1" ]}) !! mod_load_name foo_x
     = Some "1"
   ∧ "1" ≠ ""
   ∧ module_load foo_x (process_of {[ "SCSPKG_foo_LOADED" := "1" ]}) =
       (Raise (SystemExit 1),
        mkProcess {[ "SCSPKG_foo_LOADED" := "1" ]}
          ([] ++ ["Module " +:+ name foo_x +:+ " is already loaded"]) ∅))
  ∧ (environ (process_of ∅) !! mod_load_name foo_x = None
     ∧ module_unload foo_x (process_of ∅) =
         (Raise (SystemExit 1),
          mkProcess ∅
            ([] ++ ["Module " +:+ name foo_x +:+ " is not loaded"]) ∅)).
Proof.
  split.
  - split; [reflexivity|]. split; [discriminate|].
    refine (proj1 (load_unload_guard BashLoader.ops foo_x
                     (process_of {[ "SCSPKG_foo_LOADED" := "1" ]})) "1" _ _).
    + reflexivity.
    + discriminate.
  - split; [reflexivity|].
    refine (proj2 (load_unload_guard BashLoader.ops foo_x (process_of ∅)) _).
    reflexivity.
Defined.

(** C1 fails as stated: the flag variable can be present with an empty
    value, and then [module_load] goes on and returns the script. *)
Lemma load_with_empty_flag_proceeds :
  environ (process_of {[ "SCSPKG_foo_LOADED" := ""; "PATH" := "/usr/bin" ]})
    !! mod_load_name foo_x = Some ""
  ∧ module_load foo_x
      (process_of {[ "SCSPKG_foo_LOADED" := ""; "PATH" := "/usr/bin" ]})
    = (Ok (Py.join Py.nl
             ["export FOO_HOME=/opt/foo"; "export PATH=/x/bin:/usr/bin";
              "export SCSPKG_foo_LOADED=1"]),
       process_of {[ "SCSPKG_foo_LOADED" := ""; "PATH" := "/usr/bin" ]}).
Proof. split; vm_compute; reflexivity. Qed.

(** ** The load script *)

Lemma prepend_env_absent_raises (x : string) (values : list string)
    (w : process) :
  environ w !! x = None →
  BashLoader.prepend_env x values w = (Raise (KeyError x), w).
Proof.
  intros Hx. unfold BashLoader.prepend_env, bind, environ_item.
  by rewrite Hx.
Qed.

Lemma prepend_env_present (x v : string) (values : list string) (w : process) :
  environ w !! x = Some v →
  BashLoader.prepend_env x values w =
    (Ok ("export " +:+ x +:+ "=" +:+ Py.join ":" values +:+ ":" +:+ v), w).
Proof.
  intros Hx. unfold BashLoader.prepend_env, bind, environ_item, environ_mem.
  rewrite Hx. by rewrite bool_decide_eq_true_2.
Qed.

Lemma load_setenvs_loop (l : odict.t string) (envs : list string) (w : process) :
  for_each l
    (λ envs '(env, env_data),
       line <- loader_set_env env env_data ;; ret (envs ++ [line]))
    envs w
  = (Ok (envs ++ map (λ kv, "export " +:+ kv.1 +:+ "=" +:+ kv.2) l), w).
Proof.
  revert envs. induction l as [|[env env_data] l IH]; intros envs.
  - cbn. by rewrite app_nil_r.
  - cbn [for_each]. unfold bind at 1. cbn. rewrite IH.
    by rewrite <- app_assoc.
Qed.

Lemma load_prepends_loop (l : odict.t (list string)) (envs : list string)
    (w : process) :
  Forall (λ kv : string * list string,
            nonempty kv.2 = true → is_Some (environ w !! kv.1)) l →
  for_each l
    (λ envs '(env, values),
       match values with
       | _ :: _ =>
           line <- loader_prepend_env env values ;; ret (envs ++ [line])
       | [] => ret envs
       end)
    envs w
  = (Ok (envs ++ omap (load_prepend (environ w)) l), w).
Proof.
  revert envs. induction l as [|[env values] l IH]; intros envs Hl.
  - cbn. by rewrite app_nil_r.
  - apply Forall_cons in Hl as [Hx Hl]. cbn [for_each]. unfold bind at 1.
    destruct values as [|v values].
    + cbn. by rewrite IH.
    + destruct (Hx eq_refl) as [val Hval]. cbn in Hval.
      unfold bind at 1. cbn [loader_prepend_env BashLoader.ops].
      rewrite (prepend_env_present _ _ _ _ Hval). cbn [ret].
      rewrite IH by done. cbn [omap list_omap]. unfold load_prepend at 2.
      cbn [nonempty snd fst]. rewrite Hval. cbn [fmap option_fmap option_map].
      by rewrite <- app_assoc.
Qed.

(** Where every prepended variable is set, the load script is as the
    specification words it. *)
Lemma module_load_present (p : Package) (w : process) :
  truthy (environ w !! mod_load_name p) = false →
  prepends_set (sections p) (environ w) →
  module_load p w = (Ok (Py.join Py.nl (load_spec p (environ w))), w).
Proof.
  intros Ht Hp. unfold module_load.
  unfold bind at 1. rewrite is_loaded_eq, Ht.
  unfold bind at 1. cbn [ret].
  unfold bind at 1. rewrite load_setenvs_loop.
  unfold bind at 1. rewrite (load_prepends_loop _ _ _ Hp).
  cbn [loader_set_env BashLoader.ops].
  unfold bind, ret, load_spec, BashLoader.set_env, ret.
  cbn [app]. by rewrite <- app_assoc.
Qed.

(** C3, where the code fails it.  The default skeleton prepends to
    [LD_LIBRARY_PATH]; in an environment that has [PATH] but no
    [LD_LIBRARY_PATH] the package is not loaded, and [module_load] raises
    [KeyError] for that variable instead of returning a script. *)
Theorem module_load_absent_variable_raises :
  truthy (environ (process_of {[ "PATH" := "/usr/bin" ]}) !! mod_load_name foo)
    = false
  ∧ odict.get "LD_LIBRARY_PATH" (prepends (sections foo))
    = Some ["/opt/foo/lib"; "/opt/foo/lib64"]
  ∧ environ (process_of {[ "PATH" := "/usr/bin" ]}) !! "LD_LIBRARY_PATH" = None
  ∧ module_load foo (process_of {[ "PATH" := "/usr/bin" ]})
    = (Raise (KeyError "LD_LIBRARY_PATH"), process_of {[ "PATH" := "/usr/bin" ]}).
Proof. split_and!; vm_compute; reflexivity. Qed.

(** ** The unload script *)

Lemma unload_setenvs_loop (l : list string) (envs : list string) (w : process) :
  for_each l
    (λ envs env, line <- loader_unset_env env ;; ret (envs ++ [line]))
    envs w
  = (Ok (envs ++ map (λ k, "unset " +:+ k) l), w).
Proof.
  revert envs. induction l as [|env l IH]; intros envs.
  - cbn. by rewrite app_nil_r.
  - cbn [for_each]. unfold bind at 1. cbn. rewrite IH.
    by rewrite <- app_assoc.
Qed.

Lemma unload_value_insert_ne (env : gmap string string) (x v : string)
    (kv : string * list string) :
  kv.1 ≠ x → unload_value (<[x := v]> env) kv = unload_value env kv.
Proof. intros Hne. unfold unload_value. by rewrite lookup_insert_ne. Qed.

Lemma unload_reassign_insert_ne (env : gmap string string) (x v : string)
    (kv : string * list string) :
  kv.1 ≠ x → unload_reassign (<[x := v]> env) kv = unload_reassign env kv.
Proof.
  intros Hne. unfold unload_reassign. by rewrite unload_value_insert_ne.
Qed.

Lemma unload_reassign_fresh (env : gmap string string) (x v : string)
    (l : odict.t (list string)) :
  x ∉ odict.keys l →
  omap (unload_reassign (<[x := v]> env)) l = omap (unload_reassign env) l.
Proof.
  unfold odict.keys. induction l as [|kv l IH]; [done|].
  rewrite fmap_cons, not_elem_of_cons. intros [Hne Hl].
  cbn [omap list_omap].
  rewrite unload_reassign_insert_ne by done. by rewrite IH.
Qed.

Lemma unload_prepends_loop (l : odict.t (list string)) (envs : list string)
    (w : process) :
  odict.wf l →
  for_each l
    (λ envs '(env, values),
       match values with
       | _ :: _ =>
           let path_str := Py.join ":" values in
           present <- environ_mem env ;;
           if present then
             old <- environ_item env ;;
             environ_set env (Py.strip ":" (Py.replace path_str "" old)) ;;;
             new <- environ_item env ;;
             line <- loader_set_env env new ;;
             ret (envs ++ [line])
           else ret envs
       | [] => ret envs
       end)
    envs w
  = (Ok (envs ++ omap (unload_reassign (environ w)) l),
     mkProcess
       (foldl (λ env kv,
                 match unload_value env kv with
                 | Some v => <[kv.1 := v]> env
                 | None => env
                 end)
              (environ w) l)
       (stdout w) (files w)).
Proof.
  unfold odict.wf, odict.keys.
  set (body := λ (envs : list string) (pat : string * list string), _).
  revert envs w. induction l as [|[x values] l IH]; intros envs w Hnd.
  - cbn. rewrite app_nil_r. by destruct w.
  - rewrite fmap_cons in Hnd. apply NoDup_cons in Hnd as [Hx Hnd].
    cbn [fst] in Hx. cbn [for_each foldl omap list_omap]. unfold bind at 1.
    unfold unload_reassign at 1. unfold unload_value at 1 3. cbn [fst snd].
    destruct values as [|v values]; cbn [nonempty].
    + unfold body at 1, ret at 1. cbn [fmap option_fmap option_map].
      by rewrite IH.
    + unfold body at 1. unfold bind at 1. unfold environ_mem at 1.
      destruct (environ w !! x) as [old|] eqn:Hold.
      * rewrite bool_decide_eq_true_2 by done. cbv beta iota zeta.
        unfold bind at 1, environ_item at 1. rewrite Hold. cbv beta iota zeta.
        unfold bind at 1, environ_set at 1. cbv beta iota zeta.
        unfold bind at 1, environ_item at 1. cbn [environ].
        rewrite lookup_insert_eq. cbv beta iota zeta.
        unfold bind at 1. cbn [loader_set_env BashLoader.ops].
        unfold BashLoader.set_env, ret. cbv beta iota zeta.
        rewrite IH by done.
        cbn [environ stdout files fmap option_fmap option_map].
        rewrite unload_reassign_fresh by done.
        by rewrite <- app_assoc.
      * rewrite bool_decide_eq_false_2 by (by intros [? ?]).
        unfold ret. cbn [fmap option_fmap option_map]. by rewrite IH.
Qed.

(** C10.  For a loaded package (whose prepends dictionary, like every
    Python dictionary, holds each key once), [module_unload] returns: one
    unset line per setenvs key, then, for each prepends entry with fragments
    whose variable is set in the runtime environment, one line that
    re-assigns the variable to its runtime value with the joined fragments
    removed and the leading and trailing separators trimmed; an entry whose
    variable is not set gives no line and no error.  With prepends
    [{"PATH": ["/x/bin"]}] and [PATH=/x/bin:/usr/bin] the script is exactly
    [export PATH=/usr/bin]. *)
Theorem module_unload_script :
  (∀ (p : Package) (w : process),
     odict.wf (prepends (sections p)) →
     truthy (environ w !! mod_load_name p) = true →
     module_unload p w =
       (Ok (Py.join Py.nl (unload_spec (sections p) (environ w))),
        mkProcess (unload_environ (sections p) (environ w))
          (stdout w) (files w)))
  ∧ (module_unload foo_path
       (process_of {[ "PATH" := "/x/bin:/usr/bin";
                      "SCSPKG_foo_LOADED" := "1" ]})).1
    = Ok "export PATH=/usr/bin"
  ∧ (module_unload foo_path (process_of {[ "SCSPKG_foo_LOADED" := "1" ]})).1
    = Ok "".
Proof.
  split_and!; [|vm_compute; reflexivity..].
  intros p w Hwf Ht. unfold module_unload.
  unfold bind at 1. rewrite is_loaded_eq, Ht.
  unfold bind at 1. cbn [negb ret].
  unfold bind at 1. rewrite unload_setenvs_loop.
  unfold bind at 1. rewrite (unload_prepends_loop _ _ _ Hwf).
  cbn [loader_unset_env BashLoader.ops].
  unfold bind, ret, BashLoader.unset_env, ret. reflexivity.
Qed.

Lemma module_unload_script_witness :
  odict.wf (prepends (sections foo_x))
  ∧ truthy (environ (process_of {[ "PATH" := "/x/bin:/usr/bin";
                                   "SCSPKG_foo_LOADED" := "1" ]})
            !! mod_load_name foo_x) = true
  ∧ module_unload foo_x
      (process_of {[ "PATH" := "/x/bin:/usr/bin"; "SCSPKG_foo_LOADED" := "1" ]})
    = (Ok (Py.join Py.nl ["unset FOO_HOME"; "export PATH=/usr/bin"]),
       process_of {[ "PATH" := "/usr/bin"; "SCSPKG_foo_LOADED" := "1" ]}).
Proof.
  assert (Hwf : odict.wf (prepends (sections foo_x))).
  { unfold odict.wf. cbn. apply NoDup_singleton. }
  assert (Ht : truthy (environ (process_of {[ "PATH" := "/x/bin:/usr/bin";
                                              "SCSPKG_foo_LOADED" := "1" ]})
                       !! mod_load_name foo_x) = true).
  { vm_compute. reflexivity. }
  split; [exact Hwf|]. split; [exact Ht|].
  rewrite (proj1 module_unload_script foo_x _ Hwf Ht).
  vm_compute. reflexivity.
Defined.

(** C2, where the code fails it.  [module_unload] computes the line that
    unsets the flag variable and drops it: for the loaded package [foo] the
    returned script ends with the re-assignment of [PATH], the expected last
    line [unset SCSPKG_foo_LOADED] is not in it, and a loaded package with
    nothing to set or prepend gets the empty script. *)
Theorem module_unload_drops_flag_unset :
  truthy (environ (process_of {[ "PATH" := "/x/bin:/usr/bin";
                                 "SCSPKG_foo_LOADED" := "1" ]})
          !! mod_load_name foo_x) = true
  ∧ (module_unload foo_x
       (process_of {[ "PATH" := "/x/bin:/usr/bin";
                      "SCSPKG_foo_LOADED" := "1" ]})).1
    = Ok (Py.join Py.nl ["unset FOO_HOME"; "export PATH=/usr/bin"])
  ∧ (module_unload foo_empty (process_of {[ "SCSPKG_foo_LOADED" := "1" ]})).1
    = Ok ""
  ∧ (BashLoader.unset_env (mod_load_name foo_x) (process_of ∅)).1
    = Ok "unset SCSPKG_foo_LOADED".
Proof. split_and!; vm_compute; reflexivity. Qed.

(** ** Keys stay unique

    Every section of the skeleton holds each key once, and every accessor
    keeps it so. *)

Lemma skeleton_wf (p : Package) : sections_wf (skeleton p).
Proof.
  unfold sections_wf, odict.wf, odict.keys. cbn.
  split_and!; try (apply (bool_decide_unpack _); vm_compute; exact I).
  discriminate.
Qed.

Lemma set_env_wf (p : Package) (x v : string) :
  sections_wf (sections p) → sections_wf (sections (set_env x v p)).
Proof.
  intros (Hd & He & Hs & Hp & Ha). rewrite set_env_sections.
  split_and!; cbn [doc deps setenvs prepends appends]; try done.
  - by apply wf_set.
  - by apply wf_del.
Qed.

Lemma prepend_env_wf (p : Package) (x : string) (d : str_or_list) :
  sections_wf (sections p) → sections_wf (sections (prepend_env x d p)).
Proof.
  intros (Hd & He & Hs & Hp & Ha). rewrite prepend_env_sections.
  split_and!; cbn [with_prepends doc deps setenvs prepends appends]; try done.
  apply wf_set. destruct (odict.mem x (prepends (sections p))); [done|].
  by apply wf_set.
Qed.

Lemma rm_env_wf (p : Package) (x : string) :
  sections_wf (sections p) → sections_wf (sections (rm_env x p)).
Proof.
  intros (Hd & He & Hs & Hp & Ha). rewrite rm_env_sections.
  split_and!; cbn [doc deps setenvs prepends appends]; try done;
    by apply wf_del.
Qed.

Lemma pop_prepend_wf (p p' : Package) (x v : string) (w w' : process) :
  pop_prepend x v p w = (Ok p', w') →
  sections_wf (sections p) → sections_wf (sections p').
Proof.
  intros Hr (Hd & He & Hs & Hp & Ha).
  destruct (pop_prepend_ok p x v w) as (p1 & w1 & Hr1 & Hs1 & Hk1).
  rewrite Hr in Hr1. injection Hr1 as <- <-.
  revert Hr. unfold pop_prepend.
  destruct (odict.mem x (prepends (sections p))).
  - case_bool_decide.
    + intros [= <- <-]. split_and!; try done.
      cbn [sections with_sections with_prepends prepends].
      by apply wf_update.
    + intros [= <- <-]. by split_and!.
  - intros [= <- <-]. by split_and!.
Qed.

Lemma add_deps_wf (ds : str_or_list) (p : Package) :
  sections_wf (sections p) → sections_wf (sections (add_deps ds p)).
Proof.
  unfold add_deps. generalize (as_list ds). intros l. revert p.
  induction l as [|dep l IH]; intros p Hwf; [done|].
  cbn [foldl]. apply IH. destruct Hwf as (Hd & He & Hs & Hp & Ha).
  split_and!; try done. cbn. by apply wf_set.
Qed.

Lemma pop_deps_wf (ds : str_or_list) (p p' : Package) (w w' : process) :
  pop_deps ds p w = (Ok p', w') →
  sections_wf (sections p) → sections_wf (sections p').
Proof.
  unfold pop_deps. generalize (as_list ds). intros l.
  set (body := λ (p : Package) (dep : string), _).
  destruct (save_ok (foldl body p l) w) as [w1 Hs].
  unfold bind. rewrite Hs. intros [= <- <-]. clear.
  revert p. induction l as [|dep l IH]; intros p Hwf; [done|].
  cbn [foldl]. apply IH. unfold body.
  destruct (odict.mem dep (deps (sections p))); [|done].
  destruct Hwf as (Hd & He & Hs & Hp & Ha).
  split_and!; try done. cbn. by apply wf_del.
Qed.

Lemma append_env_wf (p p' : Package) (x : string) (d : str_or_list)
    (w w' : process) :
  append_env x d p w = (Ok p', w') →
  sections_wf (sections p) → sections_wf (sections p').
Proof.
  unfold append_env, appends_section, bind.
  destruct (appends (sections p)) as [ap|] eqn:Hap; [|discriminate].
  intros [= <- <-] (Hd & He & Hs & Hp & Ha).
  split_and!; try done. cbn. intros a [= <-].
  apply wf_set. specialize (Ha ap Hap).
  destruct (odict.mem x ap); cbn [negb]; [done|]. by apply wf_set.
Qed.

Lemma step_wf (p p' : Package) (o : op) (w w' : process) :
  step p o w = (Ok p', w') →
  sections_wf (sections p) → sections_wf (sections p').
Proof.
  destruct o as [x v|x d|x|x v|ds|ds|]; cbn [step]; unfold ret.
  - intros [= <- <-]. apply set_env_wf.
  - intros [= <- <-]. apply prepend_env_wf.
  - intros [= <- <-]. apply rm_env_wf.
  - apply pop_prepend_wf.
  - intros [= <- <-]. apply add_deps_wf.
  - apply pop_deps_wf.
  - intros [= <- <-] _. apply skeleton_wf.
Qed.

Lemma run_wf (ops : list op) (p p' : Package) (w w' : process) :
  run ops p w = (Ok p', w') →
  sections_wf (sections p) → sections_wf (sections p').
Proof.
  unfold run. revert p w. induction ops as [|o ops IH]; intros p w.
  - cbn. unfold ret. by intros [= <- <-].
  - cbn [for_each]. unfold bind at 1.
    destruct (step p o w) as [[p1|e] w1] eqn:Hs; [|discriminate].
    intros Hr Hwf. apply (IH _ _ Hr). by apply (step_wf _ _ _ _ _ Hs).
Qed.

(** * Further properties of the accessors *)

Section odict_more.
Context {V : Type}.
Implicit Types (d : odict.t V) (k : string) (v : V).

Lemma del_update k v d : odict.del k (odict.update k v d) = odict.del k d.
Proof.
  unfold odict.del. induction d as [|[k0 v0] d IH]; [done|].
  cbn [odict.update]. destruct (decide (k0 = k)) as [->|Hne].
  - by rewrite !filter_cons_False by (cbn; tauto).
  - rewrite !(filter_cons_True (λ kv : string * V, kv.1 ≠ k)) by done.
    by rewrite IH.
Qed.

Lemma del_app_fresh k v d : odict.del k (d ++ [(k, v)]) = odict.del k d.
Proof.
  unfold odict.del. rewrite filter_app.
  rewrite (filter_cons_False _ (k, v)) by (cbn; tauto).
  rewrite filter_nil. apply app_nil_r.
Qed.

Lemma del_set k v d : odict.del k (odict.set k v d) = odict.del k d.
Proof.
  unfold odict.set. destruct (odict.mem k d).
  - apply del_update.
  - apply del_app_fresh.
Qed.

Lemma del_del k d : odict.del k (odict.del k d) = odict.del k d.
Proof.
  apply del_not_mem. rewrite mem_del. by rewrite bool_decide_eq_true_2.
Qed.

Lemma update_update k v1 v2 d :
  odict.update k v2 (odict.update k v1 d) = odict.update k v2 d.
Proof.
  induction d as [|[k0 v0] d IH]; [done|].
  cbn [odict.update]. destruct (decide (k0 = k)) as [->|Hne];
    cbn [odict.update].
  - by rewrite decide_True.
  - rewrite decide_False by done. by rewrite IH.
Qed.

Lemma update_app_fresh k v1 v2 d :
  odict.mem k d = false →
  odict.update k v2 (d ++ [(k, v1)]) = d ++ [(k, v2)].
Proof.
  induction d as [|[k0 v0] d IH].
  - intros _. cbn. by rewrite decide_True.
  - rewrite mem_cons, orb_false_iff, bool_decide_eq_false. intros [Hne Hm].
    cbn [app odict.update]. rewrite decide_False by done. by rewrite IH.
Qed.

Lemma update_same k v d : odict.get k d = Some v → odict.update k v d = d.
Proof.
  induction d as [|[k0 v0] d IH]; [done|].
  cbn [odict.get odict.update]. destruct (decide (k0 = k)) as [->|Hne].
  - by intros [= ->].
  - intros Hg. by rewrite IH.
Qed.

Lemma set_set k v1 v2 d :
  odict.set k v2 (odict.set k v1 d) = odict.set k v2 d.
Proof.
  unfold odict.set at 1. rewrite mem_set, bool_decide_eq_true_2 by done.
  cbn [orb]. unfold odict.set. destruct (odict.mem k d) eqn:Hm.
  - apply update_update.
  - by apply update_app_fresh.
Qed.

Lemma set_same k v d : odict.get k d = Some v → odict.set k v d = d.
Proof.
  intros Hg. unfold odict.set.
  destruct (odict.mem k d) eqn:Hm.
  - by apply update_same.
  - apply get_none_mem in Hm. congruence.
Qed.

End odict_more.

Lemma package_eq (p q : Package) :
  scspkg p = scspkg q → name p = name q → sections p = sections q → p = q.
Proof. destruct p, q. cbn. by intros -> -> ->. Qed.

(** X1.  [rm_env x] leaves [x] in neither setenvs nor prepends, keeps every
    other entry of both in its place, and does not touch doc, deps or the
    appends section (fragments appended for [x] stay). *)
Theorem rm_env_spec (p : Package) (x : string) :
  let s := sections p in
  let s' := sections (rm_env x p) in
  odict.mem x (setenvs s') = false
  ∧ odict.mem x (prepends s') = false
  ∧ (∀ y, odict.get y (setenvs s') =
          if decide (y = x) then None else odict.get y (setenvs s))
  ∧ (∀ y, odict.get y (prepends s') =
          if decide (y = x) then None else odict.get y (prepends s))
  ∧ setenvs s' = filter (λ kv, kv.1 ≠ x) (setenvs s)
  ∧ prepends s' = filter (λ kv, kv.1 ≠ x) (prepends s)
  ∧ doc s' = doc s ∧ deps s' = deps s ∧ appends s' = appends s.
Proof.
  cbn zeta. rewrite rm_env_sections. cbn [doc deps setenvs prepends appends].
  split_and!; try done.
  - by rewrite mem_del, bool_decide_eq_true_2.
  - by rewrite mem_del, bool_decide_eq_true_2.
  - intros y. apply get_del.
  - intros y. apply get_del.
Qed.

(** X2.  [rm_env x] wipes what [set_env x] and [prepend_env x] did: removing
    [x] right after setting it or prepending to it gives the same package as
    removing [x] directly, and removing twice is removing once. *)
Theorem rm_env_absorbs (p : Package) (x v : string) (d : str_or_list) :
  rm_env x (set_env x v p) = rm_env x p
  ∧ rm_env x (prepend_env x d p) = rm_env x p
  ∧ rm_env x (rm_env x p) = rm_env x p.
Proof.
  split_and!; (apply package_eq; [done..|]); rewrite !rm_env_sections.
  - rewrite set_env_sections.
    cbn [doc deps setenvs prepends appends]. by rewrite del_set, del_del.
  - rewrite prepend_env_sections.
    cbn [with_prepends doc deps setenvs prepends appends].
    rewrite del_set. destruct (odict.mem x (prepends (sections p))); [done|].
    by rewrite del_set.
  - cbn [doc deps setenvs prepends appends]. by rewrite !del_del.
Qed.

(** X3.  Setting a name twice keeps the last value: the result is the same
    package as setting it once to that value; and setting a name after
    prepending to it is as if nothing had been prepended.  A name that was
    already set keeps its place among the setenvs keys, a new one goes
    last. *)
Theorem set_env_overwrites (p : Package) (x v1 v2 : string) (d : str_or_list) :
  set_env x v2 (set_env x v1 p) = set_env x v2 p
  ∧ set_env x v2 (prepend_env x d p) = set_env x v2 p
  ∧ odict.keys (setenvs (sections (set_env x v1 p))) =
      if odict.mem x (setenvs (sections p))
      then odict.keys (setenvs (sections p))
      else odict.keys (setenvs (sections p)) ++ [x].
Proof.
  split_and!.
  - apply package_eq; [done..|]. rewrite !set_env_sections.
    cbn [doc deps setenvs prepends appends]. by rewrite set_set, del_del.
  - apply package_eq; [done..|].
    rewrite !set_env_sections, prepend_env_sections.
    cbn [with_prepends doc deps setenvs prepends appends].
    rewrite del_set. destruct (odict.mem x (prepends (sections p))); [done|].
    by rewrite del_set.
  - rewrite set_env_sections. cbn [setenvs]. apply keys_set.
Qed.

(** X4.  [prepend_env x] changes the entry of [x] only: every other
    prepends entry is as before, a name that had an entry keeps its place
    among the keys and a new one goes last, and setenvs, doc, deps and
    appends are untouched (an assignment of [x] in setenvs stays). *)
Theorem prepend_env_frame (p : Package) (x : string) (d : str_or_list) :
  let s := sections p in
  let s' := sections (prepend_env x d p) in
  (∀ y, odict.get y (prepends s') =
        if decide (y = x)
        then Some (default [] (odict.get x (prepends s)) ++ as_list d)
        else odict.get y (prepends s))
  ∧ odict.keys (prepends s') =
      (if odict.mem x (prepends s)
       then odict.keys (prepends s)
       else odict.keys (prepends s) ++ [x])
  ∧ setenvs s' = setenvs s
  ∧ doc s' = doc s ∧ deps s' = deps s ∧ appends s' = appends s.
Proof.
  cbn zeta. rewrite prepend_env_sections.
  cbn [with_prepends doc deps setenvs prepends appends].
  split_and!; try done.
  - intros y. rewrite get_set. destruct (decide (y = x)); [done|].
    destruct (odict.mem x (prepends (sections p))); [done|].
    by rewrite get_set, decide_False.
  - rewrite keys_set.
    destruct (odict.mem x (prepends (sections p))) eqn:Hm.
    + by rewrite Hm.
    + rewrite mem_set, bool_decide_eq_true_2 by done. cbn [orb].
      by rewrite keys_set, Hm.
Qed.

(** ** [pop_prepend] *)

Lemma list_remove_first (f : string) (l1 l2 : list string) :
  f ∉ l1 → list_remove f (l1 ++ f :: l2) = l1 ++ l2.
Proof.
  induction l1 as [|y l1 IH]; intros Hf.
  - cbn. by rewrite decide_True.
  - apply not_elem_of_cons in Hf as [Hne Hf]. cbn [app list_remove].
    rewrite decide_False by done. by rewrite IH.
Qed.

Lemma get_some_mem {V} (k : string) (v : V) (d : odict.t V) :
  odict.get k d = Some v → odict.mem k d = true.
Proof.
  intros Hg. destruct (odict.mem k d) eqn:Hm; [done|].
  apply get_none_mem in Hm. congruence.
Qed.

Lemma pop_prepend_found (p : Package) (x f : string) (l : list string)
    (w : process) :
  odict.get x (prepends (sections p)) = Some l → f ∈ l →
  pop_prepend x f p w =
    (Ok (with_sections p
           (with_prepends (sections p)
              (odict.update x (list_remove f l) (prepends (sections p))))),
     w).
Proof.
  intros Hg Hf. unfold pop_prepend.
  rewrite (get_some_mem _ _ _ Hg), Hg. cbn [default].
  by rewrite bool_decide_eq_true_2.
Qed.

(** X5.  Where the entry of [x] has the fragment [f], [pop_prepend x f]
    removes its first occurrence and nothing else: the fragments before and
    after it keep their order, the other entries and the order of the keys
    are as before (the key [x] stays, even with no fragment left), the other
    sections are untouched and nothing is printed. *)
Theorem pop_prepend_removes_first (p : Package) (x f : string)
    (l1 l2 : list string) (w : process) :
  odict.get x (prepends (sections p)) = Some (l1 ++ f :: l2) → f ∉ l1 →
  ∃ p', pop_prepend x f p w = (Ok p', w)
    ∧ (∀ y, odict.get y (prepends (sections p')) =
            if decide (y = x) then Some (l1 ++ l2)
            else odict.get y (prepends (sections p)))
    ∧ odict.keys (prepends (sections p')) = odict.keys (prepends (sections p))
    ∧ setenvs (sections p') = setenvs (sections p)
    ∧ doc (sections p') = doc (sections p)
    ∧ deps (sections p') = deps (sections p)
    ∧ appends (sections p') = appends (sections p).
Proof.
  intros Hg Hf. eexists. split.
  - apply (pop_prepend_found _ _ _ _ _ Hg). set_solver.
  - cbn [sections with_sections with_prepends prepends setenvs doc deps appends].
    split_and!; try done.
    + intros y. rewrite get_update, Hg, list_remove_first by done.
      by destruct (decide (y = x)).
    + apply keys_update.
Qed.

Lemma pop_prepend_removes_first_witness :
  odict.get "PYTHONPATH" (prepends (sections foo))
    = Some (["/opt/foo/bin"] ++ "/opt/foo/lib" :: ["/opt/foo/lib64"])
  ∧ ("/opt/foo/lib" ∉ ["/opt/foo/bin"])
  ∧ ∃ p', pop_prepend "PYTHONPATH" "/opt/foo/lib" foo (process_of ∅)
          = (Ok p', process_of ∅)
    ∧ (∀ y, odict.get y (prepends (sections p')) =
            if decide (y = "PYTHONPATH")
            then Some (["/opt/foo/bin"] ++ ["/opt/foo/lib64"])
            else odict.get y (prepends (sections foo)))
    ∧ odict.keys (prepends (sections p')) = odict.keys (prepends (sections foo))
    ∧ setenvs (sections p') = setenvs (sections foo)
    ∧ doc (sections p') = doc (sections foo)
    ∧ deps (sections p') = deps (sections foo)
    ∧ appends (sections p') = appends (sections foo).
Proof.
  assert (Hf : "/opt/foo/lib" ∉ ["/opt/foo/bin"]).
  { intros Hin. apply list_elem_of_singleton in Hin. discriminate. }
  split; [reflexivity|]. split; [exact Hf|].
  exact (pop_prepend_removes_first foo "PYTHONPATH" "/opt/foo/lib"
           ["/opt/foo/bin"] ["/opt/foo/lib64"] (process_of ∅) eq_refl Hf).
Defined.

(** X6.  [pop_prepend] never fails: for a name without a prepends entry, or
    a fragment that the entry does not have, it prints one line saying so
    and returns the package unchanged. *)
Theorem pop_prepend_reports (p : Package) (x f : string) (w : process) :
  (odict.get x (prepends (sections p)) = None →
     pop_prepend x f p w =
       (Ok p,
        mkProcess (environ w)
          (stdout w ++ [x +:+ " is not a prepend variable"]) (files w)))
  ∧ (∀ l, odict.get x (prepends (sections p)) = Some l → f ∉ l →
       pop_prepend x f p w =
         (Ok p,
          mkProcess (environ w)
            (stdout w ++ [f +:+ " not in " +:+ x +:+ " prepend variable"])
            (files w))).
Proof.
  split.
  - intros Hg. unfold pop_prepend.
    apply get_none_mem in Hg. by rewrite Hg.
  - intros l Hg Hf. unfold pop_prepend.
    rewrite (get_some_mem _ _ _ Hg), Hg. cbn [default].
    by rewrite bool_decide_eq_false_2.
Qed.

Lemma pop_prepend_reports_witness :
  (odict.get "MANPATH" (prepends (sections foo)) = None
   ∧ pop_prepend "MANPATH" "/opt/foo/man" foo (process_of ∅) =
       (Ok foo,
        mkProcess ∅ ([] ++ ["MANPATH" +:+ " is not a prepend variable"]) ∅))
  ∧ (odict.get "CPATH" (prepends (sections foo)) = Some []
     ∧ ("/inc" ∉ (@nil string))
     ∧ pop_prepend "CPATH" "/inc" foo (process_of ∅) =
         (Ok foo,
          mkProcess ∅
            ([] ++ ["/inc" +:+ " not in " +:+ "CPATH" +:+ " prepend variable"])
            ∅)).
Proof.
  split.
  - split; [reflexivity|].
    exact (proj1 (pop_prepend_reports foo "MANPATH" "/opt/foo/man"
                    (process_of ∅)) eq_refl).
  - split; [reflexivity|]. split; [apply not_elem_of_nil|].
    exact (proj2 (pop_prepend_reports foo "CPATH" "/inc" (process_of ∅))
             [] eq_refl (not_elem_of_nil _)).
Defined.

(** X7.  Popping a fragment that was just prepended gives the entry back:
    where the entry of [x] (empty when there is none) does not have [a],
    [prepend_env x [a]] then [pop_prepend x a] leaves the former fragments,
    and [prepend_env x [a]], [prepend_env x [b]], [pop_prepend x a] leaves
    them followed by [b]. *)
Theorem prepend_then_pop (p : Package) (x a b : string) (w : process) :
  a ∉ default [] (odict.get x (prepends (sections p))) →
  (∃ p1, pop_prepend x a (prepend_env x (Lst [a]) p) w = (Ok p1, w)
     ∧ odict.get x (prepends (sections p1))
       = Some (default [] (odict.get x (prepends (sections p)))))
  ∧ (∃ p2, pop_prepend x a
             (prepend_env x (Lst [b]) (prepend_env x (Lst [a]) p)) w
           = (Ok p2, w)
     ∧ odict.get x (prepends (sections p2))
       = Some (default [] (odict.get x (prepends (sections p))) ++ [b])).
Proof.
  intros Ha. set (old := default [] (odict.get x (prepends (sections p)))) in *.
  split.
  - eexists. split.
    + apply (pop_prepend_found _ _ _ (old ++ [a])).
      * apply prepend_env_get.
      * set_solver.
    + cbn [sections with_sections with_prepends prepends].
      rewrite get_update, decide_True, prepend_env_get by done.
      cbn [fmap option_fmap option_map as_list]. fold old.
      by rewrite list_remove_first, app_nil_r.
  - eexists. split.
    + apply (pop_prepend_found _ _ _ (old ++ a :: [b])).
      * rewrite !prepend_env_get. cbn. fold old.
        by rewrite <- app_assoc.
      * set_solver.
    + cbn [sections with_sections with_prepends prepends].
      rewrite get_update, decide_True, !prepend_env_get by done.
      cbn [fmap option_fmap option_map as_list].
      by rewrite list_remove_first.
Qed.

Lemma prepend_then_pop_witness :
  ("/x/bin" ∉ default [] (odict.get "PATH" (prepends (sections foo))))
  ∧ (∃ p1, pop_prepend "PATH" "/x/bin"
             (prepend_env "PATH" (Lst ["/x/bin"]) foo) (process_of ∅)
           = (Ok p1, process_of ∅)
     ∧ odict.get "PATH" (prepends (sections p1))
       = Some (default [] (odict.get "PATH" (prepends (sections foo)))))
  ∧ (∃ p2, pop_prepend "PATH" "/x/bin"
             (prepend_env "PATH" (Lst ["/y/bin"])
                (prepend_env "PATH" (Lst ["/x/bin"]) foo)) (process_of ∅)
           = (Ok p2, process_of ∅)
     ∧ odict.get "PATH" (prepends (sections p2))
       = Some (default [] (odict.get "PATH" (prepends (sections foo)))
               ++ ["/y/bin"])).
Proof.
  assert (Ha : "/x/bin" ∉
                 default [] (odict.get "PATH" (prepends (sections foo)))).
  { apply (bool_decide_unpack _). vm_compute. exact I. }
  split; [exact Ha|].
  exact (prepend_then_pop foo "PATH" "/x/bin" "/y/bin" (process_of ∅) Ha).
Defined.

(** ** Dependencies: [add_deps], [pop_deps], [ls_deps] *)

Lemma add_deps_sections_eq (ds : str_or_list) (p : Package) :
  sections (add_deps ds p) =
  with_deps (sections p) (set_all (as_list ds) (deps (sections p))).
Proof.
  unfold add_deps, set_all. generalize (as_list ds). intros l. revert p.
  induction l as [|dep l IH]; intros p; cbn [foldl].
  - by destruct (sections p).
  - by rewrite IH.
Qed.

Lemma set_all_get (l : list string) (d : odict.t bool) (y : string) :
  odict.get y (set_all l d) =
  if bool_decide (y ∈ l) then Some true else odict.get y d.
Proof.
  unfold set_all. revert d. induction l as [|k l IH]; intros d.
  - done.
  - cbn [foldl]. rewrite IH, get_set.
    destruct (decide (y = k)) as [->|Hne].
    + rewrite (bool_decide_eq_true_2 (k ∈ k :: l)) by set_solver.
      by destruct (bool_decide (k ∈ l)).
    + destruct (bool_decide (y ∈ l)) eqn:Hy.
      * apply bool_decide_eq_true in Hy.
        by rewrite bool_decide_eq_true_2 by set_solver.
      * apply bool_decide_eq_false in Hy.
        by rewrite bool_decide_eq_false_2 by set_solver.
Qed.

Lemma set_all_keys (l : list string) (d : odict.t bool) :
  ∃ new, odict.keys (set_all l d) = odict.keys d ++ new
         ∧ NoDup new
         ∧ ∀ y, y ∈ new ↔ y ∈ l ∧ y ∉ odict.keys d.
Proof.
  unfold set_all. revert d. induction l as [|k l IH]; intros d.
  - exists []. rewrite app_nil_r. split_and!; [done|constructor|set_solver].
  - cbn [foldl]. destruct (IH (odict.set k true d)) as (new & Hk & Hnd & Hin).
    rewrite Hk, keys_set. destruct (odict.mem k d) eqn:Hm.
    + exists new. split_and!; [done..|]. intros y. rewrite Hin, keys_set, Hm.
      apply mem_spec in Hm. set_solver.
    + exists (k :: new). rewrite <- app_assoc. split_and!; [done| |].
      * apply NoDup_cons. split; [|done].
        rewrite Hin, keys_set, Hm. set_solver.
      * intros y. rewrite elem_of_cons, Hin, keys_set, Hm.
        assert (k ∉ odict.keys d).
        { intros Hk'%mem_spec. congruence. }
        destruct (decide (y = k)) as [->|]; set_solver.
Qed.

Lemma set_all_same (l : list string) (d : odict.t bool) :
  (∀ y, y ∈ l → odict.get y d = Some true) → set_all l d = d.
Proof.
  unfold set_all. induction l as [|k l IH]; intros Hl; [done|].
  cbn [foldl]. rewrite set_same by (apply Hl; set_solver).
  apply IH. intros y Hy. apply Hl. set_solver.
Qed.

Lemma add_deps_ident (ds : str_or_list) (p : Package) :
  scspkg (add_deps ds p) = scspkg p ∧ name (add_deps ds p) = name p.
Proof.
  unfold add_deps. generalize (as_list ds). intros l. revert p.
  induction l as [|k l IH]; intros p; cbn [foldl]; [done|].
  destruct (IH (with_sections p (with_deps (sections p)
    (odict.set k true (deps (sections p)))))) as [-> ->]. done.
Qed.

(** X8.  [add_deps] records every named dependency with the value [True]
    and leaves the other entries alone; the dependencies that were there keep
    their place and the new ones follow, each once; adding the same names
    again changes nothing; no other section is touched. *)
Theorem add_deps_spec (p : Package) (ds : str_or_list) :
  let s := sections p in
  let s' := sections (add_deps ds p) in
  (∀ y, odict.get y (deps s') =
        if bool_decide (y ∈ as_list ds) then Some true
        else odict.get y (deps s))
  ∧ (∃ new, odict.keys (deps s') = odict.keys (deps s) ++ new
            ∧ NoDup new
            ∧ ∀ y, y ∈ new ↔ y ∈ as_list ds ∧ y ∉ odict.keys (deps s))
  ∧ add_deps ds (add_deps ds p) = add_deps ds p
  ∧ doc s' = doc s ∧ setenvs s' = setenvs s
  ∧ prepends s' = prepends s ∧ appends s' = appends s.
Proof.
  cbn zeta. rewrite add_deps_sections_eq.
  cbn [with_deps doc deps setenvs prepends appends].
  split_and!; try done.
  - intros y. apply set_all_get.
  - apply set_all_keys.
  - apply package_eq.
    + by rewrite !(proj1 (add_deps_ident _ _)).
    + by rewrite !(proj2 (add_deps_ident _ _)).
    + rewrite !add_deps_sections_eq. cbn [with_deps deps].
      rewrite (set_all_same _ (set_all _ _)); [reflexivity|].
      intros y Hy. rewrite set_all_get. by rewrite bool_decide_eq_true_2.
Qed.

Lemma foldl_del_filter {V} (l : list string) (d : odict.t V) :
  foldl (λ d k, if odict.mem k d then odict.del k d else d) d l
  = filter (λ kv, kv.1 ∉ l) d.
Proof.
  revert d. induction l as [|k l IH]; intros d; cbn [foldl].
  - induction d as [|kv d IHd]; [done|].
    rewrite filter_cons_True by set_solver. by rewrite <- IHd.
  - rewrite IH.
    assert (Hd : (if odict.mem k d then odict.del k d else d) = odict.del k d).
    { destruct (odict.mem k d) eqn:Hm; [done|]. by rewrite del_not_mem. }
    rewrite Hd. unfold odict.del. rewrite list_filter_filter.
    apply list_filter_iff. intros [k0 v0]. cbn. set_solver.
Qed.

Lemma pop_deps_eq (ds : str_or_list) (p : Package) (w : process) :
  pop_deps ds p w =
  save (with_sections p
          (with_deps (sections p)
             (filter (λ kv, kv.1 ∉ as_list ds) (deps (sections p))))) w.
Proof.
  unfold pop_deps. generalize (as_list ds). intros l.
  set (body := λ (p : Package) (dep : string), _).
  assert (Hf : foldl body p l =
               with_sections p
                 (with_deps (sections p)
                    (filter (λ kv, kv.1 ∉ l) (deps (sections p))))).
  { rewrite <- foldl_del_filter. revert p.
    induction l as [|k l IH]; intros p; cbn [foldl].
    - by destruct p as [? ? []].
    - rewrite IH. unfold body.
      by destruct (odict.mem k (deps (sections p))). }
  rewrite Hf. destruct (save_ok (with_sections p (with_deps (sections p)
    (filter (λ kv, kv.1 ∉ l) (deps (sections p))))) w) as [w' Hs].
  unfold bind at 1. by rewrite Hs.
Qed.



Lemma ls_deps_loop (l : list string) (w : process) :
  for_each l (λ (_ : unit) dep, print dep) () w
  = (Ok (), mkProcess (environ w) (stdout w ++ l) (files w)).
Proof.
  revert w. induction l as [|dep l IH]; intros w.
  - cbn. rewrite app_nil_r. by destruct w.
  - cbn [for_each]. unfold bind at 1, print at 1. rewrite IH.
    cbn [environ stdout files]. by rewrite <- app_assoc.
Qed.

(** X11.  [ls_deps] prints the names of the dependencies, one line each and
    in the order they were added, and changes nothing else; after
    [add_deps] and [pop_deps] it prints the remaining names. *)
Theorem ls_deps_prints (p : Package) (ds : str_or_list) (w : process) :
  ls_deps p w =
    (Ok (), mkProcess (environ w)
              (stdout w ++ odict.keys (deps (sections p))) (files w))
  ∧ ∃ p' w', pop_deps ds p w = (Ok p', w')
      ∧ ls_deps p' w' =
          (Ok (), mkProcess (environ w')
                    (stdout w ++ filter (λ k, k ∉ as_list ds)
                                   (odict.keys (deps (sections p))))
                    (files w')).
Proof.
  split; [apply ls_deps_loop|].
  rewrite pop_deps_eq.
  set (p' := with_sections p _).
  assert (Hs : ∃ w', save p' w = (Ok p', w') ∧ stdout w' = stdout w).
  { unfold save, bind, write_file, ret, _save_as_tcl, _save_as_bash, write_file.
    destruct (module_type (scspkg p')); cbn; eauto. }
  destruct Hs as (w' & Hs & Hout).
  exists p', w'. split; [exact Hs|].
  unfold ls_deps. rewrite ls_deps_loop, Hout. do 3 f_equal.
  unfold p'. cbn [sections with_sections with_deps deps]. unfold odict.keys.
  generalize (deps (sections p)). intros d.
  induction d as [|[k v] d IH]; [done|].
  rewrite fmap_cons. cbn [fst].
  destruct (decide (k ∉ as_list ds)).
  - rewrite (filter_cons_True (λ kv : string * bool, kv.1 ∉ as_list ds))
      by done.
    rewrite filter_cons_True by done. rewrite fmap_cons. cbn [fst].
    by rewrite IH.
  - rewrite (filter_cons_False (λ kv : string * bool, kv.1 ∉ as_list ds))
      by done.
    by rewrite filter_cons_False by done.
Qed.

(** ** The document path and the module path *)

Lemma list_ascii_app (a b : string) :
  String.list_ascii_of_string (a +:+ b)
  = String.list_ascii_of_string a ++ String.list_ascii_of_string b.
Proof.
  induction a as [|c a IH]; [done|]. exact (f_equal (cons c) IH).
Qed.

Lemma string_app_assoc (a b c : string) :
  (a +:+ b) +:+ c = a +:+ b +:+ c.
Proof.
  induction a as [|x a IH]; [done|]. exact (f_equal (String x) IH).
Qed.

Lemma endswith_char_split (c : ascii) (a : string) :
  Py.endswith_char c a = true → ∃ e, a = e +:+ String c "".
Proof.
  induction a as [|x a IH]; [done|].
  cbn [Py.endswith_char]. destruct a as [|y a].
  - intros ->%bool_decide_eq_true. by exists "".
  - intros He. destruct (IH He) as [e ->]. by exists (String x e).
Qed.

(** The join of a directory with a relative name is the name after a prefix
    that is empty or ends with the separator. *)
Lemma path_join_relative (a b : string) :
  Py.startswith "/" b = false →
  ∃ a', Py.path_join a b = a' +:+ b
        ∧ (a' = "" ∨ ∃ e, a' = e +:+ "/").
Proof.
  intros Hb. unfold Py.path_join. rewrite Hb. destruct a as [|x a].
  - exists "". by split; [|left].
  - destruct (Py.endswith_char "/" (String x a)) eqn:He.
    + exists (String x a). split; [done|]. right.
      by apply endswith_char_split.
    + exists (String x a +:+ "/"). split.
      * symmetry. apply string_app_assoc.
      * right. by exists (String x a).
Qed.

Lemma path_join_of_absolute (a b : string) :
  Py.startswith "/" b = true → Py.path_join a b = b.
Proof. intros Hb. unfold Py.path_join. by rewrite Hb. Qed.

Lemma startswith_slash_app (n s : string) :
  Py.startswith "/" s = false →
  Py.startswith "/" (n +:+ s) = Py.startswith "/" n.
Proof.
  destruct n as [|c n]; [|done]. intros Hs. exact Hs.
Qed.

Lemma schema_path_ne_module_path (p : Package) :
  module_schema_path p ≠ module_path p.
Proof.
  unfold module_schema_path, module_path, pkg_root.
  set (n := name p). set (D := module_dir (scspkg p)).
  set (P := pkg_dir (scspkg p)).
  destruct (Py.startswith "/" n) eqn:Hn.
  - rewrite !(path_join_of_absolute _ n) by done.
    rewrite path_join_of_absolute
      by (by rewrite startswith_slash_app).
    intros Heq. apply (f_equal String.list_ascii_of_string) in Heq.
    rewrite list_ascii_app in Heq. apply (f_equal length) in Heq.
    rewrite length_app in Heq. cbn in Heq. lia.
  - destruct (path_join_relative D n Hn) as (A & -> & HA).
    destruct (path_join_relative (Py.path_join P n) (n +:+ ".yaml"))
      as (R & -> & _).
    { by rewrite startswith_slash_app. }
    intros Heq. apply (f_equal String.list_ascii_of_string) in Heq.
    rewrite !list_ascii_app in Heq.
    set (LN := String.list_ascii_of_string n) in *.
    set (LY := String.list_ascii_of_string ".yaml") in *.
    set (LR := String.list_ascii_of_string R) in *.
    symmetry in Heq.
    apply app_eq_app in Heq as [X [[HAX HX]|[HRX HX]]].
    + (* the module prefix is the document prefix followed by [X] *)
      assert (Hperm : X ≡ₚ LY).
      { apply (Permutation_app_inv_l LN).
        rewrite HX. apply Permutation_app_comm. }
      destruct HA as [->|[e ->]].
      * cbn in HAX. symmetry in HAX. apply app_eq_nil in HAX as [_ ->].
        apply Permutation_nil_l in Hperm. discriminate.
      * rewrite list_ascii_app in HAX. cbn in HAX.
        assert (Hin : "/"%char ∈ X).
        { destruct (decide (X = [])) as [->|HXne].
          - apply Permutation_nil_l in Hperm. discriminate.
          - destruct (exists_last HXne) as (X' & c & ->).
            rewrite app_assoc in HAX.
            apply app_inj_tail in HAX as [_ ->]. set_solver. }
        rewrite Hperm in Hin. unfold LY in Hin. cbn in Hin.
        repeat (apply elem_of_cons in Hin as [Hin|Hin]; [discriminate|]).
        by apply elem_of_nil in Hin.
    + (* the document prefix cannot be the longer one *)
      apply (f_equal length) in HX. rewrite !length_app in HX.
      unfold LY in HX. cbn in HX. lia.
Qed.

(** X21.  A package's document and its modulefile are never the same file:
    whatever the package directory, the module directory and the name, the
    path [save] writes the document to differs from the path it writes the
    modulefile to. *)
Theorem document_path_is_not_module_path (pd md n : string) (t : ModuleType)
    (s : Sections) :
  module_schema_path (mkPackage (mkManager pd md t) n s)
  ≠ module_path (mkPackage (mkManager pd md t) n s).
Proof. apply schema_path_ne_module_path. Qed.


(** ** [save] and the bash rendering *)

(** X12.  The bash modulefile is the shebang, one comment line per doc
    entry, one load line per dependency and a closing load line without a
    package name, joined with newlines and written to the module path; it
    has [2 + |doc| + |deps|] lines and does not depend on the setenvs,
    prepends or appends sections. *)
Theorem save_as_bash_render (p : Package) (w : process) :
  bash_lines (sections p) = bash_render_spec (sections p)
  ∧ _save_as_bash p w =
      (Ok (),
       mkProcess (environ w) (stdout w)
         (<[module_path p :=
              Text (Py.join Py.nl (bash_render_spec (sections p)))]> (files w)))
  ∧ length (bash_render_spec (sections p)) =
      2 + length (doc (sections p)) + length (deps (sections p))
  ∧ (∀ q, doc (sections q) = doc (sections p) →
          deps (sections q) = deps (sections p) →
          bash_lines (sections q) = bash_lines (sections p)).
Proof.
  assert (Hl : ∀ s, bash_lines s = bash_render_spec s).
  { intros s. unfold bash_lines, bash_render_spec.
    rewrite !append_lines_map. rewrite <- !app_assoc. cbn [app]. f_equal.
    apply (f_equal2 app); [apply map_ext; by intros [??]|done]. }
  split_and!.
  - apply Hl.
  - unfold _save_as_bash, write_file. by rewrite Hl.
  - unfold bash_render_spec. cbn [app length].
    rewrite !length_app, !length_map. unfold odict.keys.
    rewrite length_fmap. cbn [length]. lia.
  - intros q Hd He. rewrite !Hl. unfold bash_render_spec. by rewrite Hd, He.
Qed.

Lemma save_as_bash_render_witness :
  doc (sections (set_env "CC" "gcc" foo)) = doc (sections foo)
  ∧ deps (sections (set_env "CC" "gcc" foo)) = deps (sections foo)
  ∧ bash_lines (sections (set_env "CC" "gcc" foo)) = bash_lines (sections foo).
Proof.
  split; [reflexivity|]. split; [reflexivity|].
  exact (proj2 (proj2 (proj2 (save_as_bash_render foo (process_of ∅))))
           (set_env "CC" "gcc" foo) eq_refl eq_refl).
Defined.




(** ** Reading back what [save] wrote *)

Section reading.
Variable json_dumps : Sections → string.
Variable yaml_text : Sections → string.


End reading.


(** ** [build_profile] *)

(** X15.  Without [rebuild], [build_profile] returns the package as it is.
    With [rebuild] it resets the package and appends every profile entry;
    as the skeleton has no appends section, this succeeds only for an empty
    profile and otherwise raises [KeyError] for the appends section at the
    first entry. *)
Theorem build_profile_rebuild
    (manager_build_profile : option string → M (odict.t str_or_list))
    (path : option string) (p : Package) (w w' : process)
    (profile : odict.t str_or_list) :
  manager_build_profile path w = (Ok profile, w') →
  build_profile manager_build_profile path false p w = (Ok p, w')
  ∧ build_profile manager_build_profile path true p w =
      match profile with
      | [] => (Ok (reset_config p), w')
      | _ :: _ => (Raise (KeyError "appends"), w')
      end.
Proof.
  intros Hm. unfold build_profile, bind. rewrite Hm. split; [done|].
  by destruct profile as [|[k v] r].
Qed.

Lemma build_profile_rebuild_witness :
  (λ _ : option string, ret [("PATH", Str "/usr/bin")]) None (process_of ∅)
    = (Ok [("PATH", Str "/usr/bin")], process_of ∅)
  ∧ build_profile (λ _, ret [("PATH", Str "/usr/bin")]) None false foo_x
      (process_of ∅) = (Ok foo_x, process_of ∅)
  ∧ build_profile (λ _, ret [("PATH", Str "/usr/bin")]) None true foo_x
      (process_of ∅) = (Raise (KeyError "appends"), process_of ∅).
Proof.
  split; [reflexivity|].
  exact (build_profile_rebuild (λ _, ret [("PATH", Str "/usr/bin")]) None
           foo_x (process_of ∅) (process_of ∅) [("PATH", Str "/usr/bin")]
           eq_refl).
Defined.

(** ** [Package.module_load] and [Package.module_unload] *)

(** X16.  Only the bash module type has a loader.  For the TCL module type
    and for an unknown one, [Package.module_load] and
    [Package.module_unload] print one line and return nothing, whatever the
    flag variable says: no script, no exit.  For the bash module type they
    hand over to the loader and return what it returns. *)
Theorem package_module_dispatch (pd md n : string) (s : Sections)
    (shown : string) (w : process) :
  let tcl := mkPackage (mkManager pd md TCL) n s in
  let other := mkPackage (mkManager pd md (OTHER shown)) n s in
  let bash := mkPackage (mkManager pd md BASH) n s in
  let hint :=
    "Use " +:+ String (ascii_of_nat 34) "module load instead"
    +:+ String (ascii_of_nat 34) " of "
    +:+ String (ascii_of_nat 34) "scspkg module load"
    +:+ String (ascii_of_nat 34) "" in
  Package_module_load tcl w =
    (Ok None, mkProcess (environ w) (stdout w ++ [hint]) (files w))
  ∧ Package_module_unload tcl w =
    (Ok None, mkProcess (environ w) (stdout w ++ [hint]) (files w))
  ∧ Package_module_load other w =
    (Ok None,
     mkProcess (environ w)
       (stdout w ++ ["Error: Unknown module type " +:+ shown]) (files w))
  ∧ Package_module_unload other w =
    (Ok None,
     mkProcess (environ w)
       (stdout w ++ ["Error: Unknown module type " +:+ shown]) (files w))
  ∧ Package_module_load bash w =
    (let '(r, w') := module_load bash w in
     (match r with Ok script => Ok (Some script) | Raise e => Raise e end, w'))
  ∧ Package_module_unload bash w =
    (let '(r, w') := module_unload bash w in
     (match r with Ok script => Ok (Some script) | Raise e => Raise e end, w')).
Proof.
  cbn zeta. split_and!; try reflexivity.
  - unfold Package_module_load, get_script_loader. cbn [module_type scspkg].
    unfold bind at 1, ret at 1. unfold bind at 1.
    by destruct (module_load _ w) as [[script|e] w'].
  - unfold Package_module_unload, get_script_loader. cbn [module_type scspkg].
    unfold bind at 1, ret at 1. unfold bind at 1.
    by destruct (module_unload _ w) as [[script|e] w'].
Qed.

(** * Further properties of the load and unload scripts *)

Lemma for_each_app {A S} (l1 l2 : list A) (body : S → A → M S) (acc : S)
    (w : process) :
  for_each (l1 ++ l2) body acc w =
  match for_each l1 body acc w with
  | (Ok acc', w') => for_each l2 body acc' w'
  | (Raise e, w') => (Raise e, w')
  end.
Proof.
  revert acc w. induction l1 as [|x l1 IH]; intros acc w; [done|].
  cbn [app for_each]. unfold bind.
  destruct (body acc x w) as [[acc1|e] w1]; [apply IH|done].
Qed.

Lemma omap_length_all {A B} (f : A → option B) (P : A → Prop)
    `{∀ x, Decision (P x)} (l : list A) :
  Forall (λ x, P x → is_Some (f x)) l →
  Forall (λ x, ¬ P x → f x = None) l →
  length (omap f l) = length (filter P l).
Proof.
  induction l as [|x l IH]; [done|].
  intros [H1 Hl1]%Forall_cons [H2 Hl2]%Forall_cons. cbn [omap list_omap].
  destruct (decide (P x)) as [Hp|Hp].
  - rewrite filter_cons_True by done. destruct (H1 Hp) as [y ->].
    cbn. by rewrite IH.
  - rewrite filter_cons_False by done. rewrite (H2 Hp). by apply IH.
Qed.

(** X17.  For a package that is not loaded, in an environment where every
    prepended variable that has fragments is set, [module_load] returns the
    script and leaves the process as it is: one [export] per setenvs entry,
    then one per prepends entry with fragments (the fragments joined with
    [:] and put before the runtime value), then the [export] of the flag as
    the last line; entries without fragments give no line. *)
Theorem module_load_script (p : Package) (w : process) :
  truthy (environ w !! mod_load_name p) = false →
  prepends_set (sections p) (environ w) →
  module_load p w = (Ok (Py.join Py.nl (load_spec p (environ w))), w)
  ∧ length (load_spec p (environ w)) =
      length (setenvs (sections p))
      + length (filter (λ kv, nonempty kv.2 = true) (prepends (sections p)))
      + 1
  ∧ last (load_spec p (environ w)) = Some ("export " +:+ mod_load_name p +:+ "=1").
Proof.
  intros Ht Hp. split_and!.
  - by apply module_load_present.
  - unfold load_spec. rewrite !length_app, length_map. cbn [length].
    rewrite (omap_length_all _ (λ kv, nonempty kv.2 = true)); [lia| |].
    + eapply Forall_impl; [exact Hp|]. intros [x vs] Hx Hne.
      destruct (Hx Hne) as [v Hv]. unfold load_prepend. rewrite Hne.
      cbn [fst] in *. rewrite Hv. by eexists.
    + apply Forall_forall. intros [x vs] _ Hne. unfold load_prepend.
      by destruct (nonempty _).
  - unfold load_spec. by rewrite !app_assoc, last_snoc.
Qed.

Lemma module_load_script_witness :
  truthy (environ (process_of {[ "PATH" := "/usr/bin" ]}) !! mod_load_name foo_x)
    = false
  ∧ prepends_set (sections foo_x) (environ (process_of {[ "PATH" := "/usr/bin" ]}))
  ∧ module_load foo_x (process_of {[ "PATH" := "/usr/bin" ]})
    = (Ok (Py.join Py.nl
             ["export FOO_HOME=/opt/foo"; "export PATH=/x/bin:/usr/bin";
              "export SCSPKG_foo_LOADED=1"]),
       process_of {[ "PATH" := "/usr/bin" ]}).
Proof.
  assert (Hp : prepends_set (sections foo_x)
                 (environ (process_of {[ "PATH" := "/usr/bin" ]}))).
  { apply Forall_cons. split; [|apply Forall_nil_2].
    intros _. exists "/usr/bin". reflexivity. }
  split; [reflexivity|]. split; [exact Hp|].
  exact (proj1 (module_load_script foo_x
                  (process_of {[ "PATH" := "/usr/bin" ]}) eq_refl Hp)).
Defined.

(** X18.  For a package that is not loaded, [module_load] raises [KeyError]
    for the first prepended variable with fragments that is not set in the
    environment, and leaves the process as it is: no script is returned,
    whatever the entries after it. *)
Theorem module_load_first_absent (p : Package) (w : process)
    (l1 l2 : odict.t (list string)) (x v : string) (vs : list string) :
  truthy (environ w !! mod_load_name p) = false →
  prepends (sections p) = l1 ++ (x, v :: vs) :: l2 →
  Forall (λ kv : string * list string,
            nonempty kv.2 = true → is_Some (environ w !! kv.1)) l1 →
  environ w !! x = None →
  module_load p w = (Raise (KeyError x), w).
Proof.
  intros Ht Hp Hl1 Hx. unfold module_load.
  unfold bind at 1. rewrite is_loaded_eq, Ht.
  unfold bind at 1. cbn [ret].
  unfold bind at 1. rewrite load_setenvs_loop.
  unfold bind at 1. rewrite Hp, for_each_app.
  rewrite (load_prepends_loop _ _ _ Hl1). cbn [for_each].
  unfold bind at 1. unfold bind at 1.
  cbn [loader_prepend_env BashLoader.ops].
  by rewrite (prepend_env_absent_raises _ _ _ Hx).
Qed.

Lemma module_load_first_absent_witness :
  truthy (environ (process_of {[ "PATH" := "/usr/bin" ]}) !! mod_load_name foo)
    = false
  ∧ module_load foo (process_of {[ "PATH" := "/usr/bin" ]})
    = (Raise (KeyError "LD_LIBRARY_PATH"), process_of {[ "PATH" := "/usr/bin" ]}).
Proof.
  split; [reflexivity|].
  refine (module_load_first_absent foo (process_of {[ "PATH" := "/usr/bin" ]})
            [("PATH", ["/opt/foo/bin"; "/opt/foo/sbin"])]
            [("LIBRARY_PATH", ["/opt/foo/lib"; "/opt/foo/lib64"]);
             ("INCLUDE", []); ("CPATH", []);
             ("CMAKE_PREFIX_PATH", ["/opt/foo/cmake"]);
             ("PYTHONPATH", ["/opt/foo/bin"; "/opt/foo/lib"; "/opt/foo/lib64"]);
             ("PKG_CONFIG_PATH",
               ["/opt/foo/lib/pkgconfig"; "/opt/foo/lib64/pkgconfig"]);
             ("CFLAGS", []); ("LDFLAGS", [])]
            "LD_LIBRARY_PATH" "/opt/foo/lib" ["/opt/foo/lib64"] _ _ _ _).
  - reflexivity.
  - reflexivity.
  - apply Forall_cons. split; [|apply Forall_nil_2].
    intros _. exists "/usr/bin". reflexivity.
  - reflexivity.
Defined.

Lemma module_unload_loaded (p : Package) (w : process) :
  odict.wf (prepends (sections p)) →
  truthy (environ w !! mod_load_name p) = true →
  module_unload p w =
    (Ok (Py.join Py.nl (unload_spec (sections p) (environ w))),
     mkProcess (unload_environ (sections p) (environ w)) (stdout w) (files w)).
Proof.
  intros Hwf Ht. unfold module_unload.
  unfold bind at 1. rewrite is_loaded_eq, Ht.
  unfold bind at 1. cbn [negb ret].
  unfold bind at 1. rewrite unload_setenvs_loop.
  unfold bind at 1. rewrite (unload_prepends_loop _ _ _ Hwf).
  cbn [loader_unset_env BashLoader.ops].
  unfold bind, ret, BashLoader.unset_env, ret. reflexivity.
Qed.

Lemma unload_touch_notin (l : odict.t (list string)) (env : gmap string string)
    (k : string) :
  k ∉ odict.keys l →
  foldl (λ env kv,
           match unload_value env kv with
           | Some v => <[kv.1 := v]> env
           | None => env
           end) env l !! k = env !! k.
Proof.
  unfold odict.keys. revert env. induction l as [|[x vs] l IH]; intros env.
  - done.
  - rewrite fmap_cons, not_elem_of_cons. cbn [fst]. intros [Hne Hk].
    cbn [foldl]. rewrite IH by done.
    destruct (unload_value env (x, vs)); [|done].
    cbn [fst]. by rewrite lookup_insert_ne.
Qed.

Lemma unload_touch_in (l : odict.t (list string)) (env : gmap string string)
    (x : string) (vs : list string) :
  odict.wf l → (x, vs) ∈ l →
  foldl (λ env kv,
           match unload_value env kv with
           | Some v => <[kv.1 := v]> env
           | None => env
           end) env l !! x
  = match unload_value env (x, vs) with
    | Some v => Some v
    | None => env !! x
    end.
Proof.
  unfold odict.wf, odict.keys. revert env.
  induction l as [|[x0 vs0] l IH]; intros env Hnd Hin.
  - by apply elem_of_nil in Hin.
  - rewrite fmap_cons in Hnd. apply NoDup_cons in Hnd as [Hx0 Hnd].
    cbn [fst] in Hx0. cbn [foldl].
    apply elem_of_cons in Hin as [[= -> ->]|Hin].
    + rewrite unload_touch_notin by done.
      destruct (unload_value env (x0, vs0)); [|done].
      cbn [fst]. by rewrite lookup_insert_eq.
    + assert (Hne : x ≠ x0).
      { intros ->. apply Hx0. apply list_elem_of_fmap. by exists (x0, vs). }
      rewrite IH by done.
      destruct (unload_value env (x0, vs0)) as [v0|]; [|done]. cbn [fst].
      rewrite (unload_value_insert_ne env x0 v0 (x, vs)) by done.
      by rewrite lookup_insert_ne.
Qed.

(** X19.  [module_unload] changes the process environment itself, not only
    the script: for a loaded package, afterwards every prepended variable
    that has fragments and is set holds its value with the joined fragments
    removed and the [:] at both ends trimmed, every other variable is as
    before, and output and files are untouched.  The flag variable (when it
    is not itself a prepended name) is still set, so the package still
    counts as loaded in this process. *)
Theorem module_unload_environ (p : Package) (w : process) :
  odict.wf (prepends (sections p)) →
  truthy (environ w !! mod_load_name p) = true →
  ∃ script w', module_unload p w = (Ok script, w')
    ∧ stdout w' = stdout w ∧ files w' = files w
    ∧ (∀ k, k ∉ odict.keys (prepends (sections p)) →
            environ w' !! k = environ w !! k)
    ∧ (∀ x vs, (x, vs) ∈ prepends (sections p) →
            environ w' !! x =
              match vs, environ w !! x with
              | _ :: _, Some v =>
                  Some (Py.strip ":" (Py.replace (Py.join ":" vs) "" v))
              | _, o => o
              end)
    ∧ (mod_load_name p ∉ odict.keys (prepends (sections p)) →
       truthy (environ w' !! mod_load_name p) = true).
Proof.
  intros Hwf Ht. eexists _, _.
  split; [by apply module_unload_loaded|].
  cbn [environ stdout files]. unfold unload_environ. split_and!; try done.
  - intros k Hk. by apply unload_touch_notin.
  - intros x vs Hin. rewrite (unload_touch_in _ _ _ _ Hwf Hin).
    unfold unload_value. cbn [fst snd].
    destruct vs as [|v vs]; cbn [nonempty]; [by destruct (environ w !! x)|].
    by destruct (environ w !! x).
  - intros Hk. by rewrite unload_touch_notin.
Qed.

Lemma module_unload_environ_witness :
  odict.wf (prepends (sections foo_x))
  ∧ truthy (environ (process_of {[ "PATH" := "/x/bin:/usr/bin";
                                   "SCSPKG_foo_LOADED" := "1" ]})
            !! mod_load_name foo_x) = true
  ∧ ∃ script w',
      module_unload foo_x
        (process_of {[ "PATH" := "/x/bin:/usr/bin";
                       "SCSPKG_foo_LOADED" := "1" ]}) = (Ok script, w')
      ∧ environ w' !! "PATH" = Some "/usr/bin"
      ∧ truthy (environ w' !! mod_load_name foo_x) = true.
Proof.
  assert (Hwf : odict.wf (prepends (sections foo_x))).
  { unfold odict.wf. cbn. apply NoDup_singleton. }
  assert (Ht : truthy (environ (process_of {[ "PATH" := "/x/bin:/usr/bin";
                                              "SCSPKG_foo_LOADED" := "1" ]})
                       !! mod_load_name foo_x) = true).
  { vm_compute. reflexivity. }
  split; [exact Hwf|]. split; [exact Ht|].
  destruct (module_unload_environ foo_x _ Hwf Ht)
    as (script & w' & Hr & _ & _ & _ & Hin & Hflag).
  exists script, w'. split; [exact Hr|]. split.
  - rewrite (Hin "PATH" ["/x/bin"]).
    + vm_compute. reflexivity.
    + apply list_elem_of_singleton. reflexivity.
  - apply Hflag. cbn. intros Hk. apply list_elem_of_singleton in Hk.
    discriminate.
Defined.

(** ** Unloading what loading prepended *)

Lemma startswith_app (p s : string) : Py.startswith p (p +:+ s) = true.
Proof.
  induction p as [|c p IH]; [done|].
  simpl. by rewrite bool_decide_eq_true_2, IH.
Qed.

Lemma replace_go_skip (old new t s : string) :
  Py.replace_go old new (String.length t) (t +:+ s) = Py.replace_go old new 0 s.
Proof. induction t as [|c t IH]; [done|]. exact IH. Qed.

Lemma replace_prefix (c : ascii) (p' new s : string) :
  Py.replace (String c p') new (String c p' +:+ s)
  = new +:+ Py.replace (String c p') new s.
Proof.
  unfold Py.replace.
  change (String c p' +:+ s) with (String c (p' +:+ s)).
  cbn [Py.replace_go].
  change (String c (p' +:+ s)) with (String c p' +:+ s).
  rewrite (startswith_app (String c p') s).
  replace (String.length (String c p') - 1) with (String.length p')
    by (cbn [String.length]; lia).
  by rewrite replace_go_skip.
Qed.

Lemma replace_no_occurrence (old new s : string) :
  old ≠ "" → occurs old s = false → Py.replace old new s = s.
Proof.
  intros Hne. unfold Py.replace. destruct old as [|c old']; [done|].
  induction s as [|a s IH]; [done|].
  cbn [occurs]. intros [Hs Ho]%orb_false_iff.
  cbn [Py.replace_go]. rewrite Hs. by rewrite IH.
Qed.

Lemma rstrip_fixed (chars s : string) (c : ascii) :
  chars = String c "" → Py.endswith_char c s = false → Py.rstrip chars s = s.
Proof.
  intros ->. induction s as [|a s IH]; [done|].
  cbn [Py.endswith_char Py.rstrip]. destruct s as [|b s].
  - intros Ha%bool_decide_eq_false. cbn.
    by rewrite bool_decide_eq_false_2 by congruence.
  - intros He. by rewrite IH.
Qed.

Lemma strip_colon_fixed (v : string) :
  Py.startswith ":" v = false → Py.endswith_char ":" v = false →
  Py.strip ":" v = v.
Proof.
  intros Hs He. unfold Py.strip.
  assert (Hl : Py.lstrip ":" v = v).
  { destruct v as [|a v]; [done|]. cbn in Hs |- *.
    rewrite andb_true_r in Hs. rewrite orb_false_r.
    by destruct (bool_decide (":"%char = a)). }
  rewrite Hl. by apply (rstrip_fixed _ _ ":"%char).
Qed.

(** X20.  Unloading undoes what loading prepended.  The load script gives a
    prepended variable the joined fragments, a [:] and the value [v] it had;
    when that is its runtime value and the joined fragments (not empty) do
    not occur in [:v], [module_unload] re-assigns the variable, in the script
    and in the process environment, to [v] with the [:] at both ends
    trimmed, which is [v] itself when [v] neither starts nor ends with
    [:]. *)
Theorem unload_undoes_prepend (p : Package) (w : process) (x v : string)
    (vs : list string) :
  odict.wf (prepends (sections p)) →
  truthy (environ w !! mod_load_name p) = true →
  (x, vs) ∈ prepends (sections p) →
  Py.join ":" vs ≠ "" →
  environ w !! x = Some (Py.join ":" vs +:+ ":" +:+ v) →
  occurs (Py.join ":" vs) (":" +:+ v) = false →
  (∀ w0, environ w0 !! x = Some v →
         BashLoader.prepend_env x vs w0 =
           (Ok ("export " +:+ x +:+ "=" +:+ Py.join ":" vs +:+ ":" +:+ v), w0))
  ∧ (∃ lines w',
       module_unload p w = (Ok (Py.join Py.nl lines), w')
       ∧ ("export " +:+ x +:+ "=" +:+ Py.strip ":" v) ∈ lines
       ∧ environ w' !! x = Some (Py.strip ":" v))
  ∧ (Py.startswith ":" v = false → Py.endswith_char ":" v = false →
     Py.strip ":" v = v).
Proof.
  intros Hwf Ht Hin Hj Hx Ho.
  assert (Hvs : nonempty vs = true).
  { destruct vs; [done|done]. }
  assert (Hval : unload_value (environ w) (x, vs) = Some (Py.strip ":" v)).
  { unfold unload_value. cbn [fst snd]. rewrite Hvs, Hx.
    cbn [fmap option_fmap option_map]. f_equal.
    destruct (Py.join ":" vs) as [|c j'] eqn:Hjoin; [done|].
    rewrite replace_prefix, replace_no_occurrence by done. done. }
  split_and!.
  - intros w0 Hv. by apply prepend_env_present.
  - eexists _, _. split; [by apply module_unload_loaded|]. split.
    + unfold unload_spec. apply elem_of_app. right.
      apply list_elem_of_omap. exists (x, vs). split; [done|].
      unfold unload_reassign. by rewrite Hval.
    + cbn [environ]. unfold unload_environ.
      rewrite (unload_touch_in _ _ _ _ Hwf Hin). by rewrite Hval.
  - apply strip_colon_fixed.
Qed.

Lemma unload_undoes_prepend_witness :
  odict.wf (prepends (sections foo_x))
  ∧ environ (process_of {[ "PATH" := "/x/bin:/usr/bin";
                           "SCSPKG_foo_LOADED" := "1" ]}) !! "PATH"
    = Some (Py.join ":" ["/x/bin"] +:+ ":" +:+ "/usr/bin")
  ∧ occurs (Py.join ":" ["/x/bin"]) (":" +:+ "/usr/bin") = false
  ∧ ∃ lines w',
      module_unload foo_x
        (process_of {[ "PATH" := "/x/bin:/usr/bin";
                       "SCSPKG_foo_LOADED" := "1" ]})
      = (Ok (Py.join Py.nl lines), w')
      ∧ ("export " +:+ "PATH" +:+ "=" +:+ Py.strip ":" "/usr/bin") ∈ lines
      ∧ environ w' !! "PATH" = Some (Py.strip ":" "/usr/bin").
Proof.
  assert (Hwf : odict.wf (prepends (sections foo_x))).
  { unfold odict.wf. cbn. apply NoDup_singleton. }
  assert (Ht : truthy (environ (process_of {[ "PATH" := "/x/bin:/usr/bin";
                                              "SCSPKG_foo_LOADED" := "1" ]})
                       !! mod_load_name foo_x) = true).
  { vm_compute. reflexivity. }
  assert (Hin : ("PATH", ["/x/bin"]) ∈ prepends (sections foo_x)).
  { apply list_elem_of_singleton. reflexivity. }
  assert (Hj : Py.join ":" ["/x/bin"] ≠ "").
  { discriminate. }
  assert (Hx : environ (process_of {[ "PATH" := "/x/bin:/usr/bin";
                                      "SCSPKG_foo_LOADED" := "1" ]}) !! "PATH"
               = Some (Py.join ":" ["/x/bin"] +:+ ":" +:+ "/usr/bin")).
  { vm_compute. reflexivity. }
  assert (Ho : occurs (Py.join ":" ["/x/bin"]) (":" +:+ "/usr/bin") = false).
  { vm_compute. reflexivity. }
  split; [exact Hwf|]. split; [exact Hx|]. split; [exact Ho|].
  exact (proj1 (proj2 (unload_undoes_prepend foo_x _ "PATH" "/usr/bin"
                         ["/x/bin"] Hwf Ht Hin Hj Hx Ho))).
Defined.

(** * Further properties: [append_env], and what no accessor changes *)



